(** * The YouTube download facade (main.py): handlers, pipeline and file lifecycle

    A shallow embedding of [src/main.py].  The three FastAPI handlers are
    written in a small state-and-exception monad over
    - a filesystem (which paths exist, with their size, and which paths
      refuse deletion),
    - a trace of the externally visible actions (processes started, the
      metadata extractor called, files unlinked).
    Everything that is not in the repository (the two command-line tools,
    the yt_dlp extractor, pydantic's field validation, text decoding, the
    string form of an HTTPException) is a field of an environment record
    [Env], so that every statement holds for whatever these do. *)

From Stdlib Require Import ZArith Strings.Byte DecimalString.
From stdpp Require Import base option list gmap strings.

Local Open Scope Z_scope.

(** ** Python values, exceptions and the models of main.py *)

(** The values found in the dictionary returned by [extract_info]. *)
#[warnings="-register-all"] Inductive PyVal : Type :=
  | VNone
  | VInt (z : Z)
  | VStr (s : string)
  | VList (l : list PyVal).

(** The exceptions that reach the [except Exception] clauses.  All of
    them are subclasses of [Exception]. *)
Inductive Exn : Type :=
  | HTTPException (status_code : Z) (detail : string)
  | KeyError (key : string)
  | ValidationError (fields : list string)
  | OSError (msg : string)
  | UnicodeDecodeError (msg : string)
  | DownloadError (msg : string)
  | Exception (msg : string).

(** class MediaRequest(BaseModel) *)
Record MediaRequest : Type := mkMediaRequest {
  videoUrl : string;
  format : string
}.

(** The default of the [format] field (line 13). *)
Definition MediaRequest_format_default : string := "bestaudio/best".

(** class VideoMetadata(BaseModel) *)
Record VideoMetadata : Type := mkVideoMetadata {
  title : string;
  author : string;
  length_seconds : Z;
  view_count : Z;
  upload_date : string;
  likes : Z;
  description : string;
  thumbnails : list PyVal
}.

(** What a handler returns. *)
Inductive Response : Type :=
  | FileResponse (path : string) (media_type : string) (filename : string)
  | MetadataResponse (metadata : VideoMetadata).

(** ** The world outside the program *)

(** The filesystem: the size of every existing path, and the paths whose
    deletion is refused together with the message of the error. *)
Record FS : Type := mkFS {
  files : gmap string N;
  undeletable : gmap string string
}.

(** A process that has run to completion. *)
Record Completed : Type := mkCompleted {
  returncode : Z;
  stdout : list byte;
  stderr : list byte;
  fs_after : FS
}.

(** The parts of the world the program calls into. *)
Record Env : Type := mkEnv {
  (** Running [argv] with the given standard input in a filesystem:
      [inl msg] when the program cannot be started (the OSError of
      [Popen]), else what it did. *)
  exec : list string → list byte → FS → string + Completed;
  (** [bytes.decode('utf-8')]: [inl msg] is a UnicodeDecodeError. *)
  decode_utf8 : list byte → string + string;
  (** The decoding done by [subprocess.run(..., text=True)]. *)
  decode_locale : list byte → string + string;
  (** [YoutubeDL(opts).extract_info(url, download=False)]: [inl msg] is
      a DownloadError.  Only the returned dictionary is modelled, not
      what the library does to the outside world while extracting. *)
  extract_info : list (string * bool) → string → string + gmap string PyVal;
  (** pydantic's validation of a [str], [int] and [list] field. *)
  validate_str : PyVal → option string;
  validate_int : PyVal → option Z;
  validate_list : PyVal → option (list PyVal);
  (** [str(e)] for an HTTPException and for a pydantic ValidationError. *)
  str_HTTPException : Z → string → string;
  str_ValidationError : list string → string
}.

(** [str(e)].  A KeyError prints the repr of its key. *)
Definition str_exn (env : Env) (e : Exn) : string :=
  match e with
  | HTTPException s d => str_HTTPException env s d
  | KeyError k => "'" +:+ k +:+ "'"
  | ValidationError fs => str_ValidationError env fs
  | OSError m => m
  | UnicodeDecodeError m => m
  | DownloadError m => m
  | Exception m => m
  end.

(** ** The trace of visible actions *)

Inductive Event : Type :=
  (** A process was started; [stdin_of] names the command whose standard
      output is connected to its standard input, if any. *)
  | Launch (argv : list string) (stdin_of : option (list string))
  | ExtractInfo (opts : list (string * bool)) (url : string)
  | Unlink (path : string).

Record State : Type := mkState {
  fs : FS;
  trace : list Event
}.

(** ** The monad: state that survives a raised exception *)

Definition M (A : Type) : Type := State → (Exn + A) * State.

Definition ret {A} (a : A) : M A := fun s => (inr a, s).

Definition raise {A} (e : Exn) : M A := fun s => (inl e, s).

Definition bind {A B} (m : M A) (k : A → M B) : M B :=
  fun s => match m s with
           | (inl e, s') => (inl e, s')
           | (inr a, s') => k a s'
           end.

Notation "'let!' x ':=' m 'in' k" := (bind m (fun x => k))
  (at level 10, x name, m at level 100, k at level 200).
Notation "'run!' m 'in' k" := (bind m (fun _ => k))
  (at level 10, m at level 100, k at level 200).

(** try: body / except Exception as e: handler e *)
Definition try_except {A} (body : M A) (handler : Exn → M A) : M A :=
  fun s => match body s with
           | (inl e, s') => handler e s'
           | (inr a, s') => (inr a, s')
           end.

(** try: body / finally: cleanup.  The cleanup always runs; when it
    raises, its exception replaces the pending return value or
    exception of the body. *)
Definition try_finally {A} (body : M A) (cleanup : M unit) : M A :=
  fun s => match body s with
           | (r, s') => match cleanup s' with
                        | (inl e, s'') => (inl e, s'')
                        | (inr _, s'') => (r, s'')
                        end
           end.

(** ** Primitives *)

Definition log_event (ev : Event) : M unit :=
  fun s => (inr tt, mkState (fs s) (trace s ++ [ev])).

(** Start [argv], feed it [input] and let it run to completion. *)
Definition Popen (env : Env) (argv : list string)
    (stdin_of : option (list string)) (input : list byte) : M Completed :=
  fun s => match exec env argv input (fs s) with
           | inl msg => (inl (OSError msg), s)
           | inr c => (inr c, mkState (fs_after c) (trace s ++ [Launch argv stdin_of]))
           end.

(** [Path.exists()] *)
Definition path_exists (p : string) : M bool :=
  fun s => (inr (bool_decide (is_Some (files (fs s) !! p))), s).

(** [Path.unlink()] *)
Definition path_unlink (p : string) : M unit :=
  fun s => match files (fs s) !! p with
           | None => (inl (OSError ("[Errno 2] No such file or directory: '" +:+ p +:+ "'")), s)
           | Some _ =>
             match undeletable (fs s) !! p with
             | Some msg => (inl (OSError msg), s)
             | None => (inr tt, mkState (mkFS (delete p (files (fs s))) (undeletable (fs s)))
                                        (trace s ++ [Unlink p]))
             end
           end.

Definition decode (d : list byte → string + string) (b : list byte) : M string :=
  match d b with
  | inl msg => raise (UnicodeDecodeError msg)
  | inr t => ret t
  end.

(** ** main.py: configuration *)

(** [Path("./downloads")]; pathlib drops the leading [./]. *)
Definition BASE_DOWNLOAD_DIR : string := "downloads".

(** The [/] of pathlib. *)
Definition Path_div (dir name : string) : string := dir +:+ "/" +:+ name.

Definition FFMPEG_PATH : string := "ffmpeg".
Definition YT_DLP_PATH : string := "yt-dlp".

(** ** main.py: download_media (lines 34-62) *)

Definition command (video_url media_format : string) : list string :=
  [YT_DLP_PATH; video_url; "--format"; media_format; "-o"; "-"].

Definition ffmpeg_command (output_file : string) : list string :=
  [FFMPEG_PATH; "-i"; "pipe:0"; "-vn"; "-acodec"; "libmp3lame";
   "-ar"; "44100"; "-ab"; "192k"; "-f"; "mp3"; output_file].

(** The body of the [try] of download_media.  The pipe is modelled by
    handing the whole output of yt-dlp to ffmpeg; the return code of
    yt-dlp is never read. *)
Definition download_media_try (env : Env)
    (video_url media_format output_file : string) : M unit :=
  let! yt_dlp_proc := Popen env (command video_url media_format) None [] in
  let! ffmpeg_proc := Popen env (ffmpeg_command output_file)
                        (Some (command video_url media_format))
                        (stdout yt_dlp_proc) in
  if bool_decide (returncode ffmpeg_proc ≠ 0) then
    let! ffmpeg_stderr := decode (decode_utf8 env) (stderr ffmpeg_proc) in
    raise (Exception ("FFmpeg error: " +:+ ffmpeg_stderr))
  else ret tt.

Definition download_media (env : Env)
    (video_url media_format output_file : string) : M unit :=
  try_except
    (download_media_try env video_url media_format output_file)
    (fun e => raise (HTTPException 500 ("Error processing video: " +:+ str_exn env e))).

(** ** main.py: youtube_metadata (lines 65-96) *)

Definition ydl_opts : list (string * bool) :=
  [("quiet", true); ("force_generic_extractor", true)].

Definition YoutubeDL_extract_info (env : Env) (opts : list (string * bool))
    (url : string) : M (gmap string PyVal) :=
  run! log_event (ExtractInfo opts url) in
  match extract_info env opts url with
  | inl msg => raise (DownloadError msg)
  | inr info => ret info
  end.

(** [d[k]] *)
Definition dict_getitem (d : gmap string PyVal) (k : string) : M PyVal :=
  match d !! k with
  | Some v => ret v
  | None => raise (KeyError k)
  end.

(** [d.get(k, dflt)] *)
Definition dict_get (d : gmap string PyVal) (k : string) (dflt : PyVal) : PyVal :=
  default dflt (d !! k).

Definition invalid {A} (name : string) (o : option A) : list string :=
  match o with
  | Some _ => []
  | None => [name]
  end.

(** [VideoMetadata(title=..., ...)]: every field is validated; the
    ValidationError lists the fields that were refused. *)
Definition VideoMetadata_init (env : Env)
    (a_title a_author a_length_seconds a_view_count a_upload_date a_likes
     a_description a_thumbnails : PyVal) : M VideoMetadata :=
  match validate_str env a_title, validate_str env a_author,
        validate_int env a_length_seconds, validate_int env a_view_count,
        validate_str env a_upload_date, validate_int env a_likes,
        validate_str env a_description, validate_list env a_thumbnails with
  | Some t, Some a, Some l, Some v, Some u, Some k, Some d, Some th =>
      ret (mkVideoMetadata t a l v u k d th)
  | ot, oa, ol, ov, ou, ok, od, oth =>
      raise (ValidationError
               (invalid "title" ot ++ invalid "author" oa ++
                invalid "length_seconds" ol ++ invalid "view_count" ov ++
                invalid "upload_date" ou ++ invalid "likes" ok ++
                invalid "description" od ++ invalid "thumbnails" oth))
  end.

Definition youtube_metadata_try (env : Env) (video_url : string) : M Response :=
  let! video_info := YoutubeDL_extract_info env ydl_opts video_url in
  let! a_title := dict_getitem video_info "title" in
  let! a_author := dict_getitem video_info "uploader" in
  let! a_length_seconds := dict_getitem video_info "duration" in
  let a_view_count := dict_get video_info "view_count" (VInt 0) in
  let! a_upload_date := dict_getitem video_info "upload_date" in
  let a_likes := dict_get video_info "like_count" (VInt 0) in
  let a_description := dict_get video_info "description" (VStr "") in
  let! a_thumbnails := dict_getitem video_info "thumbnails" in
  let! metadata := VideoMetadata_init env a_title a_author a_length_seconds
                     a_view_count a_upload_date a_likes a_description a_thumbnails in
  ret (MetadataResponse metadata).

Definition youtube_metadata (env : Env) (video : MediaRequest) : M Response :=
  let video_url := videoUrl video in
  if bool_decide (video_url = "") then
    raise (HTTPException 400 "Video URL is required.")
  else
    try_except
      (youtube_metadata_try env video_url)
      (fun e => raise (HTTPException 500
                         ("Error fetching video details: " +:+ str_exn env e))).

(** ** main.py: youtube_to_mp3 (lines 99-130) *)

(** Line 110: the destination of the request. *)
Definition mp3_output_file (request : MediaRequest) : string :=
  Path_div BASE_DOWNLOAD_DIR "audio.mp3".

(** Lines 113-124, the body of the [try]. *)
Definition youtube_to_mp3_try (env : Env)
    (video_url media_format output_file : string) : M Response :=
  run! download_media env video_url media_format output_file in
  let! present := path_exists output_file in
  if negb present then
    raise (HTTPException 500 "Audio conversion failed, file not created.")
  else
    ret (FileResponse output_file "audio/mpeg" "audio.mp3").

(** The [except] clause of both conversion handlers. *)
Definition reraise_500 (env : Env) (e : Exn) : M Response :=
  raise (HTTPException 500 ("Error processing the request: " +:+ str_exn env e)).

(** The [finally] clause of both conversion handlers. *)
Definition cleanup (output_file : string) : M unit :=
  let! present := path_exists output_file in
  if present then path_unlink output_file else ret tt.

Definition youtube_to_mp3 (env : Env) (request : MediaRequest) : M Response :=
  let video_url := videoUrl request in
  let media_format := format request in
  if bool_decide (video_url = "") then
    raise (HTTPException 400 "Video URL is required.")
  else
    let output_file := mp3_output_file request in
    try_finally
      (try_except (youtube_to_mp3_try env video_url media_format output_file)
                  (reraise_500 env))
      (cleanup output_file).

(** ** main.py: youtube_to_video (lines 133-172) *)

(** Line 144: the destination of the request. *)
Definition video_output_file (request : MediaRequest) : string :=
  Path_div BASE_DOWNLOAD_DIR "video.mp4".

Definition video_command (video_url media_format output_file : string)
    : list string :=
  [YT_DLP_PATH; video_url; "--format"; media_format; "-o"; output_file].

(** What [subprocess.run(..., capture_output=True, text=True)] returns. *)
Record CompletedProcess : Type := mkCompletedProcess {
  cp_returncode : Z;
  cp_stdout : string;
  cp_stderr : string
}.

Definition subprocess_run (env : Env) (argv : list string) : M CompletedProcess :=
  let! proc := Popen env argv None [] in
  let! out := decode (decode_locale env) (stdout proc) in
  let! err := decode (decode_locale env) (stderr proc) in
  ret (mkCompletedProcess (returncode proc) out err).

(** Lines 147-166, the body of the [try]. *)
Definition youtube_to_video_try (env : Env)
    (video_url media_format output_file : string) : M Response :=
  let! result := subprocess_run env (video_command video_url media_format output_file) in
  if bool_decide (cp_returncode result ≠ 0) then
    raise (Exception ("yt-dlp error: " +:+ cp_stderr result))
  else
    let! present := path_exists output_file in
    if negb present then
      raise (HTTPException 500 "Video download failed, file not created.")
    else
      ret (FileResponse output_file "video/mp4" "video.mp4").

Definition youtube_to_video (env : Env) (request : MediaRequest) : M Response :=
  let video_url := videoUrl request in
  let media_format := format request in
  if bool_decide (video_url = "") then
    raise (HTTPException 400 "Video URL is required.")
  else
    let output_file := video_output_file request in
    try_finally
      (try_except (youtube_to_video_try env video_url media_format output_file)
                  (reraise_500 env))
      (cleanup output_file).

(** ** The FastAPI layer around the handlers *)

(** The JSON body of a request, as far as the [MediaRequest] model reads
    it: each of the two fields is present (with a string) or absent.
    Bodies that give a field another JSON value (null, a number) are not
    represented. *)
Record Body : Type := mkBody {
  body_videoUrl : option string;
  body_format : option string
}.

(** Building the [MediaRequest] from the body: [videoUrl] has no default
    and is required; [format] falls back to its default. *)
Definition MediaRequest_validate (b : Body) : option MediaRequest :=
  match body_videoUrl b with
  | None => None
  | Some url =>
      Some (mkMediaRequest url (default MediaRequest_format_default (body_format b)))
  end.

Inductive Endpoint : Type :=
  | api_youtube_video_details
  | api_youtube_to_mp3
  | api_youtube_to_video.

Definition handler (env : Env) (ep : Endpoint) : MediaRequest → M Response :=
  match ep with
  | api_youtube_video_details => youtube_metadata env
  | api_youtube_to_mp3 => youtube_to_mp3 env
  | api_youtube_to_video => youtube_to_video env
  end.

(** What the handler hands to the framework, as the framework's
    exception handling turns it into a reply: the returned response, the
    status and detail of a raised HTTPException, the 422 of a body the
    model refuses, or the plain 500 of any other exception that leaves
    the handler.  The sending of a returned [FileResponse], which the
    framework does after the handler has ended, is not part of it. *)
Inductive Reply : Type :=
  | ReplyOK (r : Response)
  | ReplyHTTPException (status_code : Z) (detail : string)
  | ReplyUnprocessable
  | ReplyServerError (e : Exn).

Definition reply_status (r : Reply) : Z :=
  match r with
  | ReplyOK _ => 200
  | ReplyHTTPException st _ => st
  | ReplyUnprocessable => 422
  | ReplyServerError _ => 500
  end.

Definition serve (env : Env) (ep : Endpoint) (b : Body) (s : State) : Reply * State :=
  match MediaRequest_validate b with
  | None => (ReplyUnprocessable, s)
  | Some request =>
      match handler env ep request s with
      | (inr r, s') => (ReplyOK r, s')
      | (inl (HTTPException st d), s') => (ReplyHTTPException st d, s')
      | (inl e, s') => (ReplyServerError e, s')
      end
  end.

(** The validation of a field accepts a value of the declared type and
    keeps it as it is. *)
Definition pydantic_accepts (env : Env) : Prop :=
  (∀ x, validate_str env (VStr x) = Some x) ∧
  (∀ z, validate_int env (VInt z) = Some z) ∧
  (∀ l, validate_list env (VList l) = Some l).

(** ** Observations on a run *)

(** The events a computation adds to the trace. *)
Definition events_of {X} (m : State → X * State) (s : State) : list Event :=
  drop (length (trace s)) (trace (m s).2).

Definition is_Launch (ev : Event) : bool :=
  match ev with
  | Launch _ _ => true
  | _ => false
  end.

Definition is_Unlink (ev : Event) : bool :=
  match ev with
  | Unlink _ => true
  | _ => false
  end.

Definition launches (evs : list Event) : list Event :=
  List.filter is_Launch evs.

Definition unlinks (evs : list Event) : list Event :=
  List.filter is_Unlink evs.

(** The state after a successful unlink of [p]. *)
Definition unlinked (p : string) (s : State) : State :=
  mkState (mkFS (delete p (files (fs s))) (undeletable (fs s))) (trace s ++ [Unlink p]).

(** The [try]/[except] part of a conversion handler: what the handler
    is about to return or raise when the [finally] clause starts. *)
Definition mp3_primary (env : Env) (request : MediaRequest) : M Response :=
  try_except
    (youtube_to_mp3_try env (videoUrl request) (format request) (mp3_output_file request))
    (reraise_500 env).

Definition video_primary (env : Env) (request : MediaRequest) : M Response :=
  try_except
    (youtube_to_video_try env (videoUrl request) (format request)
       (video_output_file request))
    (reraise_500 env).

(** The processes the [try] body of youtube_to_mp3 gets started. *)
Definition mp3_launched (env : Env) (url fmt out : string) (s : State) : list Event :=
  match exec env (command url fmt) [] (fs s) with
  | inl _ => []
  | inr c1 =>
      Launch (command url fmt) None ::
      match exec env (ffmpeg_command out) (stdout c1) (fs_after c1) with
      | inl _ => []
      | inr _ => [Launch (ffmpeg_command out) (Some (command url fmt))]
      end
  end.

(** The process the [try] body of youtube_to_video gets started. *)
Definition video_launched (env : Env) (url fmt out : string) (s : State) : list Event :=
  match exec env (video_command url fmt out) [] (fs s) with
  | inl _ => []
  | inr _ => [Launch (video_command url fmt out) None]
  end.

(** The two conversion endpoints, to state what they share once. *)
Inductive Conversion : Type :=
  | to_mp3
  | to_video.

Definition conversion_handler (env : Env) (k : Conversion) : MediaRequest → M Response :=
  match k with
  | to_mp3 => youtube_to_mp3 env
  | to_video => youtube_to_video env
  end.

Definition conversion_output_file (k : Conversion) : MediaRequest → string :=
  match k with
  | to_mp3 => mp3_output_file
  | to_video => video_output_file
  end.

Definition conversion_try (env : Env) (k : Conversion) (request : MediaRequest)
    : M Response :=
  match k with
  | to_mp3 => youtube_to_mp3_try env (videoUrl request) (format request)
                (mp3_output_file request)
  | to_video => youtube_to_video_try env (videoUrl request) (format request)
                  (video_output_file request)
  end.

Definition conversion_primary (env : Env) (k : Conversion) (request : MediaRequest)
    : M Response :=
  try_except (conversion_try env k request) (reraise_500 env).

Definition conversion_launched (env : Env) (k : Conversion) (request : MediaRequest)
    (s : State) : list Event :=
  match k with
  | to_mp3 => mp3_launched env (videoUrl request) (format request)
                (mp3_output_file request) s
  | to_video => video_launched env (videoUrl request) (format request)
                  (video_output_file request) s
  end.


Definition file_exists (f : FS) (p : string) : Prop := is_Some (files f !! p).

(** ** Concrete worlds, to run the handlers on *)

(** Field validators for the sample worlds: a value of the declared type
    is accepted as it is, anything else is refused.  The conversions that
    pydantic may apply to other values (a numeric string for an [int])
    are left out of these worlds; the theorems hold for any validators. *)
Definition strict_str (v : PyVal) : option string :=
  match v with
  | VStr s => Some s
  | _ => None
  end.

Definition strict_int (v : PyVal) : option Z :=
  match v with
  | VInt z => Some z
  | _ => None
  end.

Definition strict_list (v : PyVal) : option (list PyVal) :=
  match v with
  | VList l => Some l
  | _ => None
  end.

Definition write_file (dest : string) (size : option N) (f : FS) : FS :=
  match size with
  | Some n => mkFS (<[dest := n]> (files f)) (undeletable f)
  | None => f
  end.

(** [str(e)] of Starlette's HTTPException: the status code, a colon and
    the detail. *)
Definition starlette_str (status_code : Z) (detail : string) : string :=
  NilZero.string_of_int (Z.to_int status_code) +:+ ": " +:+ detail.

(** Tools with a scripted behaviour: yt-dlp exits with [yt_rc], ffmpeg
    with [ff_rc]; whichever is given the destination leaves a file of
    size [size] there ([None]: no file) and prints [err] on its standard
    error. *)
Definition scripted_exec (yt_rc ff_rc : Z) (size : option N) (err : list byte)
    (argv : list string) (input : list byte) (f : FS) : string + Completed :=
  let dest := List.last argv "" in
  if bool_decide (hd "" argv = FFMPEG_PATH) then
    inr (mkCompleted ff_rc [] err (write_file dest size f))
  else if bool_decide (dest = "-") then
    inr (mkCompleted yt_rc ["m"%byte] [] f)
  else
    inr (mkCompleted yt_rc [] err (write_file dest size f)).

Definition sample_info : gmap string PyVal :=
  <["title" := VStr "clip"]> (<["uploader" := VStr "someone"]>
  (<["duration" := VInt 212]> (<["upload_date" := VStr "20240101"]>
  (<["thumbnails" := VList []]> ∅)))).

Definition scripted_env (yt_rc ff_rc : Z) (size : option N) (err : list byte) : Env :=
  mkEnv (scripted_exec yt_rc ff_rc size err)
        (fun b => inr (String.string_of_list_byte b))
        (fun b => inr (String.string_of_list_byte b))
        (fun _ _ => inr sample_info)
        strict_str strict_int strict_list
        starlette_str
        (fun _ => "validation error").

(** Both tools exit with status zero and leave five bytes. *)
Definition working_tools : Env := scripted_env 0 0 (Some 5%N) [].


(** Both tools exit with status one, print "boom" and leave no file. *)
Definition failing_tools : Env :=
  scripted_env 1 1 None ["b"%byte; "o"%byte; "o"%byte; "m"%byte].

(** A world whose extractor answers [info] for every URL. *)
Definition metadata_env (info : gmap string PyVal) : Env :=
  mkEnv (scripted_exec 0 0 None [])
        (fun b => inr (String.string_of_list_byte b))
        (fun b => inr (String.string_of_list_byte b))
        (fun _ _ => inr info)
        strict_str strict_int strict_list
        starlette_str
        (fun _ => "validation error").

Definition empty_fs : FS := mkFS ∅ ∅.

Definition empty_state : State := mkState empty_fs [].

(** A filesystem whose two destinations exist and cannot be deleted. *)
Definition locked_fs : FS :=
  mkFS (<["downloads/audio.mp3" := 7%N]> (<["downloads/video.mp4" := 7%N]> ∅))
       (<["downloads/audio.mp3" := "Permission denied"]>
          (<["downloads/video.mp4" := "Permission denied"]> ∅)).

Definition locked_state : State := mkState locked_fs [].

Definition sample_request : MediaRequest :=
  mkMediaRequest "https://example.org/v" "bestaudio/best".

Definition other_request : MediaRequest :=
  mkMediaRequest "https://example.org/w" "best".


(** The keys of the extractor's dictionary that youtube_metadata reads
    with a subscript, in the order in which they are read. *)
Definition metadata_keys : list string :=
  ["title"; "uploader"; "duration"; "upload_date"; "thumbnails"].

(** A world in which no program can be started. *)
Definition missing_tools : Env :=
  mkEnv (fun _ _ _ => inl "[Errno 2] No such file or directory: 'yt-dlp'")
        (fun b => inr (String.string_of_list_byte b))
        (fun b => inr (String.string_of_list_byte b))
        (fun _ _ => inl "Unsupported URL")
        strict_str strict_int strict_list
        starlette_str
        (fun _ => "validation error").

(** Failing tools whose output cannot be decoded. *)
Definition garbled_tools : Env :=
  mkEnv (scripted_exec 1 1 None ["255"%byte])
        (fun _ => inl "invalid start byte")
        (fun _ => inl "invalid start byte")
        (fun _ _ => inr sample_info)
        strict_str strict_int strict_list
        starlette_str
        (fun _ => "validation error").

(** yt-dlp exits with status one, ffmpeg with status zero. *)
Definition careless_tools : Env := scripted_env 1 0 (Some 5%N) [].

(** Both tools exit with status zero and write nothing. *)
Definition idle_tools : Env := scripted_env 0 0 None [].

(** The two destinations exist, left by somebody else, and can be deleted. *)
Definition stale_fs : FS :=
  mkFS (<["downloads/audio.mp3" := 7%N]> (<["downloads/video.mp4" := 7%N]> ∅)) ∅.

Definition stale_state : State := mkState stale_fs [].

(** The extractor reports a view count of None. *)
Definition none_views_info : gmap string PyVal :=
  <["view_count" := VNone]> sample_info.

(** * Properties *)

(** ** The clauses of the handlers, one at a time *)

Lemma events_of_app {X} (m : State → X * State) (s : State) (evs : list Event) :
  trace (m s).2 = trace s ++ evs → events_of m s = evs.
Proof.
  intros H. unfold events_of. rewrite H. apply drop_app_length.
Qed.

(** The [finally] clause: nothing to do without a file; an error when
    the file refuses deletion; else one unlink. *)
Lemma cleanup_eq (p : string) (s : State) :
  cleanup p s =
  match files (fs s) !! p with
  | None => (inr tt, s)
  | Some _ =>
      match undeletable (fs s) !! p with
      | Some msg => (inl (OSError msg), s)
      | None => (inr tt, mkState (mkFS (delete p (files (fs s))) (undeletable (fs s)))
                                 (trace s ++ [Unlink p]))
      end
  end.
Proof.
  unfold cleanup, bind, path_exists, path_unlink, ret.
  destruct (files (fs s) !! p) as [n|] eqn:E; simpl; [|reflexivity].
  rewrite E. reflexivity.
Qed.

(** The [except] clause turns whatever the body raises into a 500. *)
Lemma try_except_reraise_eq (env : Env) (body : M Response) (s : State) :
  try_except body (reraise_500 env) s =
  match body s with
  | (inl e, s') =>
      (inl (HTTPException 500 ("Error processing the request: " +:+ str_exn env e)), s')
  | (inr r, s') => (inr r, s')
  end.
Proof.
  unfold try_except, reraise_500, raise. destruct (body s) as [[e|r] s']; reflexivity.
Qed.

(** download_media, run step by step. *)
Lemma download_media_eq (env : Env) (url fmt out : string) (s : State) :
  download_media env url fmt out s =
  match exec env (command url fmt) [] (fs s) with
  | inl msg => (inl (HTTPException 500 ("Error processing video: " +:+ msg)), s)
  | inr c1 =>
      let s1 := mkState (fs_after c1) (trace s ++ [Launch (command url fmt) None]) in
      match exec env (ffmpeg_command out) (stdout c1) (fs_after c1) with
      | inl msg => (inl (HTTPException 500 ("Error processing video: " +:+ msg)), s1)
      | inr c2 =>
          let s2 := mkState (fs_after c2)
                      (trace s1 ++ [Launch (ffmpeg_command out) (Some (command url fmt))]) in
          if bool_decide (returncode c2 ≠ 0) then
            match decode_utf8 env (stderr c2) with
            | inl msg =>
                (inl (HTTPException 500 ("Error processing video: " +:+ msg)), s2)
            | inr t =>
                (inl (HTTPException 500
                        ("Error processing video: " +:+ "FFmpeg error: " +:+ t)), s2)
            end
          else (inr tt, s2)
      end
  end.
Proof.
  unfold download_media, try_except, download_media_try, bind, Popen.
  destruct (exec env (command url fmt) [] (fs s)) as [msg|c1]; [reflexivity|].
  simpl.
  destruct (exec env (ffmpeg_command out) (stdout c1) (fs_after c1)) as [msg|c2];
    [reflexivity|].
  simpl. case_bool_decide; [|reflexivity].
  unfold decode. destruct (decode_utf8 env (stderr c2)); reflexivity.
Qed.

(** The [try] body of youtube_to_mp3, run step by step. *)
Lemma youtube_to_mp3_try_eq (env : Env) (url fmt out : string) (s : State) :
  youtube_to_mp3_try env url fmt out s =
  match download_media env url fmt out s with
  | (inl e, s') => (inl e, s')
  | (inr _, s') =>
      match files (fs s') !! out with
      | None => (inl (HTTPException 500 "Audio conversion failed, file not created."), s')
      | Some _ => (inr (FileResponse out "audio/mpeg" "audio.mp3"), s')
      end
  end.
Proof.
  unfold youtube_to_mp3_try, bind, path_exists.
  destruct (download_media env url fmt out s) as [[e|[]] s']; [reflexivity|].
  destruct (files (fs s') !! out); reflexivity.
Qed.

(** The [try] body of youtube_to_video, run step by step. *)
Lemma youtube_to_video_try_eq (env : Env) (url fmt out : string) (s : State) :
  youtube_to_video_try env url fmt out s =
  match exec env (video_command url fmt out) [] (fs s) with
  | inl msg => (inl (OSError msg), s)
  | inr c =>
      let s1 := mkState (fs_after c) (trace s ++ [Launch (video_command url fmt out) None]) in
      match decode_locale env (stdout c) with
      | inl msg => (inl (UnicodeDecodeError msg), s1)
      | inr _ =>
          match decode_locale env (stderr c) with
          | inl msg => (inl (UnicodeDecodeError msg), s1)
          | inr err =>
              if bool_decide (returncode c ≠ 0) then
                (inl (Exception ("yt-dlp error: " +:+ err)), s1)
              else
                match files (fs_after c) !! out with
                | None =>
                    (inl (HTTPException 500 "Video download failed, file not created."), s1)
                | Some _ => (inr (FileResponse out "video/mp4" "video.mp4"), s1)
                end
          end
      end
  end.
Proof.
  unfold youtube_to_video_try, subprocess_run, bind, Popen, decode, path_exists.
  destruct (exec env (video_command url fmt out) [] (fs s)) as [msg|c]; [reflexivity|].
  simpl.
  destruct (decode_locale env (stdout c)); [reflexivity|]. simpl.
  destruct (decode_locale env (stderr c)); [reflexivity|]. simpl.
  case_bool_decide; [reflexivity|]. cbn [fs].
  destruct (files (fs_after c) !! out); reflexivity.
Qed.

(** A conversion handler, once the URL has passed the check: the
    [try]/[except] part gives the primary result, the [finally] part
    runs on the state it leaves. *)
Lemma try_finally_eq {A} (body : M A) (p : string) (s : State) :
  try_finally body (cleanup p) s =
  match body s with
  | (r, s') =>
      match files (fs s') !! p with
      | None => (r, s')
      | Some _ =>
          match undeletable (fs s') !! p with
          | Some msg => (inl (OSError msg), s')
          | None => (r, mkState (mkFS (delete p (files (fs s'))) (undeletable (fs s')))
                                (trace s' ++ [Unlink p]))
          end
      end
  end.
Proof.
  unfold try_finally. destruct (body s) as [r s']. rewrite cleanup_eq.
  destruct (files (fs s') !! p); [|reflexivity].
  destruct (undeletable (fs s') !! p); reflexivity.
Qed.

Lemma youtube_to_mp3_eq (env : Env) (request : MediaRequest) (s : State) :
  videoUrl request ≠ "" →
  youtube_to_mp3 env request s =
  try_finally
    (try_except (youtube_to_mp3_try env (videoUrl request) (format request)
                   (mp3_output_file request)) (reraise_500 env))
    (cleanup (mp3_output_file request)) s.
Proof.
  intros H. unfold youtube_to_mp3. rewrite bool_decide_eq_false_2; done.
Qed.

Lemma youtube_to_video_eq (env : Env) (request : MediaRequest) (s : State) :
  videoUrl request ≠ "" →
  youtube_to_video env request s =
  try_finally
    (try_except (youtube_to_video_try env (videoUrl request) (format request)
                   (video_output_file request)) (reraise_500 env))
    (cleanup (video_output_file request)) s.
Proof.
  intros H. unfold youtube_to_video. rewrite bool_decide_eq_false_2; done.
Qed.

(** When a handler protected by the [finally] clause returns a value,
    its body returned that value and the cleanup did not raise. *)
Lemma try_finally_returns {A} (body : M A) (p : string) (s s' : State) (a : A) :
  try_finally body (cleanup p) s = (inr a, s') →
  ∃ s1, body s = (inr a, s1) ∧
        ((files (fs s1) !! p = None ∧ s' = s1) ∨
         (is_Some (files (fs s1) !! p) ∧ undeletable (fs s1) !! p = None ∧
          s' = unlinked p s1)).
Proof.
  rewrite try_finally_eq. destruct (body s) as [r s1].
  destruct (files (fs s1) !! p) as [n|] eqn:Ef.
  - destruct (undeletable (fs s1) !! p) as [msg|] eqn:Eu; [discriminate|].
    intros [= -> <-]. exists s1. split; [reflexivity|]. right. rewrite Ef. eauto.
  - intros [= -> <-]. exists s1. eauto.
Qed.

(** A successful [try] body of youtube_to_mp3 saw the file. *)
Lemma youtube_to_mp3_try_returns (env : Env) (url fmt out : string)
    (s s' : State) (r : Response) :
  youtube_to_mp3_try env url fmt out s = (inr r, s') →
  r = FileResponse out "audio/mpeg" "audio.mp3" ∧ is_Some (files (fs s') !! out).
Proof.
  rewrite youtube_to_mp3_try_eq.
  destruct (download_media env url fmt out s) as [[e|u] s1]; [discriminate|].
  destruct (files (fs s1) !! out) eqn:E; [|discriminate].
  intros [= <- <-]. rewrite E. eauto.
Qed.

(** A successful [try] body of youtube_to_video saw the file. *)
Lemma youtube_to_video_try_returns (env : Env) (url fmt out : string)
    (s s' : State) (r : Response) :
  youtube_to_video_try env url fmt out s = (inr r, s') →
  r = FileResponse out "video/mp4" "video.mp4" ∧ is_Some (files (fs s') !! out).
Proof.
  rewrite youtube_to_video_try_eq.
  destruct (exec env (video_command url fmt out) [] (fs s)) as [msg|c]; [discriminate|].
  cbn zeta.
  destruct (decode_locale env (stdout c)); [discriminate|].
  destruct (decode_locale env (stderr c)); [discriminate|].
  case_bool_decide; [discriminate|].
  destruct (files (fs_after c) !! out) eqn:E; [|discriminate].
  intros [= <- <-]. cbn [fs]. rewrite E. eauto.
Qed.

Lemma try_except_returns (env : Env) (body : M Response) (s s' : State) (r : Response) :
  try_except body (reraise_500 env) s = (inr r, s') → body s = (inr r, s').
Proof.
  rewrite try_except_reraise_eq. destruct (body s) as [[e|r0] s1]; [discriminate|].
  intros [= -> ->]. reflexivity.
Qed.

Lemma unlinked_gone (p : string) (s : State) : files (fs (unlinked p s)) !! p = None.
Proof. apply lookup_delete_eq. Qed.

(** The common part of both conversion handlers: when the protected
    [try] returns a response for a file it has seen, the file has been
    unlinked by the time the handler returns. *)
Lemma conversion_returns (env : Env) (body : M Response) (p : string)
    (s s' : State) (r : Response) :
  (∀ s1, body s = (inr r, s1) → is_Some (files (fs s1) !! p)) →
  try_finally (try_except body (reraise_500 env)) (cleanup p) s = (inr r, s') →
  files (fs s') !! p = None ∧ ∃ tr, trace s' = tr ++ [Unlink p].
Proof.
  intros Hseen H. apply try_finally_returns in H as (s1 & Hb & Hc).
  apply try_except_returns in Hb. specialize (Hseen _ Hb).
  destruct Hc as [[Hnone ->]|(_ & _ & ->)].
  - rewrite Hnone in Hseen. by destruct Hseen.
  - split; [apply unlinked_gone|]. by exists (trace s1).
Qed.

(** Whenever a conversion handler returns its FileResponse, the finally
    clause has already unlinked the output file: the path in the returned
    response does not exist in the filesystem the handler leaves behind,
    and the unlink is the last thing the handler did. *)
Lemma returned_response_names_deleted_file (env : Env) (request : MediaRequest)
    (s s' : State) (r : Response) :
  (youtube_to_mp3 env request s = (inr r, s') →
     r = FileResponse (mp3_output_file request) "audio/mpeg" "audio.mp3" ∧
     files (fs s') !! mp3_output_file request = None ∧
     ∃ tr, trace s' = tr ++ [Unlink (mp3_output_file request)]) ∧
  (youtube_to_video env request s = (inr r, s') →
     r = FileResponse (video_output_file request) "video/mp4" "video.mp4" ∧
     files (fs s') !! video_output_file request = None ∧
     ∃ tr, trace s' = tr ++ [Unlink (video_output_file request)]).
Proof.
  split; intros H.
  - destruct (decide (videoUrl request = "")) as [E|E].
    { unfold youtube_to_mp3 in H. rewrite bool_decide_eq_true_2 in H; done. }
    rewrite youtube_to_mp3_eq in H by done.
    assert (Hb := H). apply try_finally_returns in Hb as (s1 & Hb & _).
    apply try_except_returns, youtube_to_mp3_try_returns in Hb as [-> _].
    split; [reflexivity|].
    eapply conversion_returns; [|exact H].
    intros s2 H2. by apply youtube_to_mp3_try_returns in H2 as [_ ?].
  - destruct (decide (videoUrl request = "")) as [E|E].
    { unfold youtube_to_video in H. rewrite bool_decide_eq_true_2 in H; done. }
    rewrite youtube_to_video_eq in H by done.
    assert (Hb := H). apply try_finally_returns in Hb as (s1 & Hb & _).
    apply try_except_returns, youtube_to_video_try_returns in Hb as [-> _].
    split; [reflexivity|].
    eapply conversion_returns; [|exact H].
    intros s2 H2. by apply youtube_to_video_try_returns in H2 as [_ ?].
Qed.

(** ** What the handlers add to the trace *)

Lemma download_media_trace (env : Env) (url fmt out : string) (s : State) :
  trace (download_media env url fmt out s).2 = trace s ++ mp3_launched env url fmt out s.
Proof.
  rewrite download_media_eq. unfold mp3_launched.
  destruct (exec env (command url fmt) [] (fs s)) as [msg|c1];
    [by rewrite app_nil_r|].
  cbn zeta.
  destruct (exec env (ffmpeg_command out) (stdout c1) (fs_after c1)) as [msg|c2];
    [reflexivity|].
  cbn zeta. case_bool_decide; [|cbn [snd trace]; by rewrite <- app_assoc].
  destruct (decode_utf8 env (stderr c2)); cbn [snd trace]; by rewrite <- app_assoc.
Qed.

Lemma youtube_to_mp3_try_trace (env : Env) (url fmt out : string) (s : State) :
  trace (youtube_to_mp3_try env url fmt out s).2 = trace s ++ mp3_launched env url fmt out s.
Proof.
  rewrite youtube_to_mp3_try_eq, <- download_media_trace.
  destruct (download_media env url fmt out s) as [[e|u] s']; [reflexivity|].
  destruct (files (fs s') !! out); reflexivity.
Qed.

Lemma youtube_to_video_try_trace (env : Env) (url fmt out : string) (s : State) :
  trace (youtube_to_video_try env url fmt out s).2 =
  trace s ++ video_launched env url fmt out s.
Proof.
  rewrite youtube_to_video_try_eq. unfold video_launched.
  destruct (exec env (video_command url fmt out) [] (fs s)) as [msg|c];
    [by rewrite app_nil_r|].
  cbn zeta.
  destruct (decode_locale env (stdout c)); [reflexivity|].
  destruct (decode_locale env (stderr c)); [reflexivity|].
  case_bool_decide; [reflexivity|].
  destruct (files (fs_after c) !! out); reflexivity.
Qed.

Lemma try_except_state (env : Env) (body : M Response) (s : State) :
  (try_except body (reraise_500 env) s).2 = (body s).2.
Proof.
  rewrite try_except_reraise_eq. destruct (body s) as [[e|r] s']; reflexivity.
Qed.

(** The [finally] clause adds nothing to the trace or one unlink of the
    destination. *)
Lemma try_finally_trace {A} (body : M A) (p : string) (s : State) :
  ∃ us, (us = [] ∨ us = [Unlink p]) ∧
        trace (try_finally body (cleanup p) s).2 = trace (body s).2 ++ us.
Proof.
  rewrite try_finally_eq. destruct (body s) as [r s'].
  destruct (files (fs s') !! p).
  - destruct (undeletable (fs s') !! p).
    + exists []. split; [by left|]. by rewrite app_nil_r.
    + exists [Unlink p]. split; [by right|]. reflexivity.
  - exists []. split; [by left|]. by rewrite app_nil_r.
Qed.

Lemma conversion_events (env : Env) (body : M Response) (p : string)
    (s : State) (ls : list Event) :
  trace (body s).2 = trace s ++ ls →
  ∃ us, (us = [] ∨ us = [Unlink p]) ∧
        events_of (try_finally (try_except body (reraise_500 env)) (cleanup p)) s
        = ls ++ us.
Proof.
  intros Hb.
  destruct (try_finally_trace (try_except body (reraise_500 env)) p s) as (us & Hus & Ht).
  exists us. split; [exact Hus|].
  apply events_of_app. rewrite Ht, try_except_state, Hb. by rewrite <- app_assoc.
Qed.

Lemma launches_app (l1 l2 : list Event) : launches (l1 ++ l2) = launches l1 ++ launches l2.
Proof. apply List.filter_app. Qed.


Lemma mp3_launched_launches (env : Env) (url fmt out : string) (s : State) :
  launches (mp3_launched env url fmt out s) = mp3_launched env url fmt out s ∧
  unlinks (mp3_launched env url fmt out s) = [].
Proof.
  unfold mp3_launched.
  destruct (exec env (command url fmt) [] (fs s)) as [msg|c1]; [done|].
  destruct (exec env (ffmpeg_command out) (stdout c1) (fs_after c1)); done.
Qed.

Lemma video_launched_launches (env : Env) (url fmt out : string) (s : State) :
  launches (video_launched env url fmt out s) = video_launched env url fmt out s ∧
  unlinks (video_launched env url fmt out s) = [].
Proof.
  unfold video_launched.
  destruct (exec env (video_command url fmt out) [] (fs s)); done.
Qed.

(** The events of a whole conversion request: the processes of the
    [try] body, then at most one unlink of the destination. *)
Lemma youtube_to_mp3_events (env : Env) (request : MediaRequest) (s : State) :
  videoUrl request ≠ "" →
  ∃ us, (us = [] ∨ us = [Unlink (mp3_output_file request)]) ∧
        events_of (youtube_to_mp3 env request) s =
        mp3_launched env (videoUrl request) (format request) (mp3_output_file request) s
        ++ us.
Proof.
  intros H.
  destruct (conversion_events env
              (youtube_to_mp3_try env (videoUrl request) (format request)
                 (mp3_output_file request))
              (mp3_output_file request) s _
              (youtube_to_mp3_try_trace _ _ _ _ _)) as (us & Hus & Hev).
  exists us. split; [exact Hus|].
  unfold events_of in *. by rewrite youtube_to_mp3_eq.
Qed.

Lemma youtube_to_video_events (env : Env) (request : MediaRequest) (s : State) :
  videoUrl request ≠ "" →
  ∃ us, (us = [] ∨ us = [Unlink (video_output_file request)]) ∧
        events_of (youtube_to_video env request) s =
        video_launched env (videoUrl request) (format request)
          (video_output_file request) s ++ us.
Proof.
  intros H.
  destruct (conversion_events env
              (youtube_to_video_try env (videoUrl request) (format request)
                 (video_output_file request))
              (video_output_file request) s _
              (youtube_to_video_try_trace _ _ _ _ _)) as (us & Hus & Hev).
  exists us. split; [exact Hus|].
  unfold events_of in *. by rewrite youtube_to_video_eq.
Qed.

Lemma cleanup_events_split (us : list Event) (p : string) :
  us = [] ∨ us = [Unlink p] → launches us = [] ∧ unlinks us = us.
Proof. by intros [-> | ->]. Qed.

Lemma youtube_to_mp3_launches (env : Env) (request : MediaRequest) (s : State) :
  videoUrl request ≠ "" →
  launches (events_of (youtube_to_mp3 env request) s) =
  mp3_launched env (videoUrl request) (format request) (mp3_output_file request) s.
Proof.
  intros H. destruct (youtube_to_mp3_events env request s H) as (us & Hus & ->).
  apply cleanup_events_split in Hus as [Hl _].
  rewrite launches_app, Hl, app_nil_r. apply mp3_launched_launches.
Qed.

Lemma youtube_to_video_launches (env : Env) (request : MediaRequest) (s : State) :
  videoUrl request ≠ "" →
  launches (events_of (youtube_to_video env request) s) =
  video_launched env (videoUrl request) (format request) (video_output_file request) s.
Proof.
  intros H. destruct (youtube_to_video_events env request s H) as (us & Hus & ->).
  apply cleanup_events_split in Hus as [Hl _].
  rewrite launches_app, Hl, app_nil_r. apply video_launched_launches.
Qed.

(** The FastAPI layer adds no event of its own. *)
Lemma serve_state (env : Env) (ep : Endpoint) (b : Body) (request : MediaRequest)
    (s : State) :
  MediaRequest_validate b = Some request →
  (serve env ep b s).2 = (handler env ep request s).2.
Proof.
  intros H. unfold serve. rewrite H.
  destruct (handler env ep request s) as [[[]|r] s']; reflexivity.
Qed.

(** C7.  The audio conversion starts at most two processes and, when
    both programs can be started, exactly two: yt-dlp writing the
    selected format to its standard output, then ffmpeg reading that
    output on its standard input with the fixed arguments
    -vn -acodec libmp3lame -ar 44100 -ab 192k -f mp3 and the destination
    path.  The video download starts at most one process and, when the
    program can be started, exactly one: yt-dlp writing to the
    destination path; there is no second stage. *)
Theorem C7_pipeline_stages (env : Env) (request : MediaRequest) (s : State) :
  videoUrl request ≠ "" →
  let url := videoUrl request in
  let fmt := format request in
  let downloader := ["yt-dlp"; url; "--format"; fmt; "-o"; "-"] in
  let transcoder := ["ffmpeg"; "-i"; "pipe:0"; "-vn"; "-acodec"; "libmp3lame";
                     "-ar"; "44100"; "-ab"; "192k"; "-f"; "mp3";
                     "downloads/audio.mp3"] in
  let direct := ["yt-dlp"; url; "--format"; fmt; "-o"; "downloads/video.mp4"] in
  let audio_stages := [Launch downloader None; Launch transcoder (Some downloader)] in
  launches (events_of (youtube_to_mp3 env request) s) `prefix_of` audio_stages ∧
  (∀ c1 c2, exec env downloader [] (fs s) = inr c1 →
            exec env transcoder (stdout c1) (fs_after c1) = inr c2 →
            launches (events_of (youtube_to_mp3 env request) s) = audio_stages) ∧
  launches (events_of (youtube_to_video env request) s) `prefix_of` [Launch direct None] ∧
  (∀ c, exec env direct [] (fs s) = inr c →
        launches (events_of (youtube_to_video env request) s) = [Launch direct None]).
Proof.
  intros H url fmt downloader transcoder direct audio_stages.
  rewrite youtube_to_mp3_launches, youtube_to_video_launches by exact H.
  unfold mp3_launched, video_launched.
  change (command (videoUrl request) (format request)) with downloader.
  change (ffmpeg_command (mp3_output_file request)) with transcoder.
  change (video_command (videoUrl request) (format request) (video_output_file request))
    with direct.
  repeat split.
  - destruct (exec env downloader [] (fs s)) as [msg|c1]; [apply prefix_nil|].
    destruct (exec env transcoder (stdout c1) (fs_after c1)) as [msg|c2].
    + by exists [Launch transcoder (Some downloader)].
    + reflexivity.
  - intros c1 c2 H1 H2. by rewrite H1, H2.
  - destruct (exec env direct [] (fs s)); [apply prefix_nil|reflexivity].
  - intros c Hc. by rewrite Hc.
Qed.

(** C10.  A request to the video endpoint whose body has no [format]
    field is served with the format "bestaudio/best": the request model
    fills in that default, and the only process the endpoint starts is
    yt-dlp with --format bestaudio/best. *)
Theorem C10_video_default_format (env : Env) (b : Body) (url : string) (s : State) :
  body_videoUrl b = Some url →
  url ≠ "" →
  body_format b = None →
  let direct := ["yt-dlp"; url; "--format"; "bestaudio/best"; "-o";
                 "downloads/video.mp4"] in
  MediaRequest_validate b = Some (mkMediaRequest url "bestaudio/best") ∧
  launches (events_of (serve env api_youtube_to_video b) s) `prefix_of` [Launch direct None] ∧
  (∀ c, exec env direct [] (fs s) = inr c →
        launches (events_of (serve env api_youtube_to_video b) s) = [Launch direct None]).
Proof.
  intros Hurl Hne Hfmt direct.
  assert (Hv : MediaRequest_validate b = Some (mkMediaRequest url "bestaudio/best")).
  { unfold MediaRequest_validate. by rewrite Hurl, Hfmt. }
  split; [exact Hv|].
  assert (Hev : launches (events_of (serve env api_youtube_to_video b) s) =
                video_launched env url "bestaudio/best" "downloads/video.mp4" s).
  { unfold events_of. rewrite (serve_state _ _ _ _ _ Hv).
    by apply (youtube_to_video_launches env (mkMediaRequest url "bestaudio/best") s). }
  rewrite Hev. unfold video_launched.
  change (video_command url "bestaudio/best" "downloads/video.mp4") with direct.
  split.
  - destruct (exec env direct [] (fs s)); [apply prefix_nil|reflexivity].
  - intros c Hc. by rewrite Hc.
Qed.

(** ** Request validation *)

Lemma handler_empty_url (env : Env) (ep : Endpoint) (request : MediaRequest) (s : State) :
  videoUrl request = "" →
  handler env ep request s = (inl (HTTPException 400 "Video URL is required."), s).
Proof.
  intros H. destruct ep; unfold handler, youtube_metadata, youtube_to_mp3, youtube_to_video;
    rewrite bool_decide_eq_true_2 by exact H; reflexivity.
Qed.

(** C4, as the code has it.  A body whose [videoUrl] is the empty string
    is answered by each of the three endpoints with status 400 and the
    detail "Video URL is required."; a body without [videoUrl] is refused
    by the request model with status 422 before the handler runs.  In
    both cases the state is left as it was: no process is started and
    nothing else is done. *)
Theorem C4_empty_or_missing_url (env : Env) (ep : Endpoint) (b : Body) (s : State) :
  (body_videoUrl b = Some "" →
     serve env ep b s = (ReplyHTTPException 400 "Video URL is required.", s) ∧
     events_of (serve env ep b) s = []) ∧
  (body_videoUrl b = None →
     serve env ep b s = (ReplyUnprocessable, s) ∧
     events_of (serve env ep b) s = []).
Proof.
  split; intros H.
  - assert (E : serve env ep b s = (ReplyHTTPException 400 "Video URL is required.", s)).
    { unfold serve, MediaRequest_validate. rewrite H.
      by rewrite handler_empty_url. }
    split; [exact E|]. apply events_of_app. rewrite E. by rewrite app_nil_r.
  - assert (E : serve env ep b s = (ReplyUnprocessable, s)).
    { unfold serve, MediaRequest_validate. by rewrite H. }
    split; [exact E|]. apply events_of_app. rewrite E. by rewrite app_nil_r.
Qed.

(** ** Metadata *)

Lemma youtube_metadata_eq (env : Env) (video : MediaRequest) (s : State)
    (info : gmap string PyVal) :
  videoUrl video ≠ "" →
  extract_info env ydl_opts (videoUrl video) = inr info →
  (youtube_metadata env video s).1 =
  match
    (let! a_title := dict_getitem info "title" in
     let! a_author := dict_getitem info "uploader" in
     let! a_length_seconds := dict_getitem info "duration" in
     let! a_upload_date := dict_getitem info "upload_date" in
     let! a_thumbnails := dict_getitem info "thumbnails" in
     VideoMetadata_init env a_title a_author a_length_seconds
       (dict_get info "view_count" (VInt 0)) a_upload_date
       (dict_get info "like_count" (VInt 0))
       (dict_get info "description" (VStr "")) a_thumbnails)
      (mkState (fs s) (trace s ++ [ExtractInfo ydl_opts (videoUrl video)]))
  with
  | (inl e, _) =>
      inl (HTTPException 500 ("Error fetching video details: " +:+ str_exn env e))
  | (inr m, _) => inr (MetadataResponse m)
  end.
Proof.
  intros Hne Hx. unfold youtube_metadata.
  rewrite bool_decide_eq_false_2 by exact Hne.
  unfold try_except, youtube_metadata_try, YoutubeDL_extract_info, bind, log_event.
  rewrite Hx. unfold ret at 1.
  unfold dict_getitem, raise, ret.
  destruct (info !! "title"); [|reflexivity].
  destruct (info !! "uploader"); [|reflexivity].
  destruct (info !! "duration"); [|reflexivity].
  destruct (info !! "upload_date"); [|reflexivity].
  destruct (info !! "thumbnails"); [|reflexivity].
  match goal with
  | |- context [VideoMetadata_init ?e ?a ?b ?c ?d ?f ?g ?h ?i ?st] =>
      destruct (VideoMetadata_init e a b c d f g h i st) as [[x|m] s']
  end; reflexivity.
Qed.

(** C6.  With the dictionary [info] returned by the extractor:
    - when the required fields and the thumbnails are there, each
      optional field (view count, like count, description) that is
      missing is replaced by 0 or the empty string, and every field
      that is there is returned as it is, so that with all fields
      present the result holds exactly the values of [info];
    - when title, uploader, duration or upload date is missing, the
      fetch fails with the 500 "Error fetching video details: ..."
      naming the missing key. *)
Theorem C6_metadata_fields (env : Env) (video : MediaRequest) (s : State)
    (info : gmap string PyVal) :
  videoUrl video ≠ "" →
  extract_info env ydl_opts (videoUrl video) = inr info →
  (∀ t a d u th (views likes_ : option Z) (descr : option string),
     pydantic_accepts env →
     info !! "title" = Some (VStr t) →
     info !! "uploader" = Some (VStr a) →
     info !! "duration" = Some (VInt d) →
     info !! "upload_date" = Some (VStr u) →
     info !! "thumbnails" = Some (VList th) →
     info !! "view_count" = VInt <$> views →
     info !! "like_count" = VInt <$> likes_ →
     info !! "description" = VStr <$> descr →
     (youtube_metadata env video s).1 =
     inr (MetadataResponse
            (mkVideoMetadata t a d (default 0 views) u (default 0 likes_)
               (default "" descr) th))) ∧
  (info !! "title" = None ∨ info !! "uploader" = None ∨
   info !! "duration" = None ∨ info !! "upload_date" = None →
   ∃ k, k ∈ ["title"; "uploader"; "duration"; "upload_date"] ∧
        info !! k = None ∧
        (youtube_metadata env video s).1 =
        inl (HTTPException 500 ("Error fetching video details: " +:+ "'" +:+ k +:+ "'"))).
Proof.
  intros Hne Hx. rewrite (youtube_metadata_eq env video s info Hne Hx). split.
  - intros t a d u th views likes_ descr (Hs & Hi & Hl) Ht Ha Hd Hu Hth Hv Hk Hde.
    unfold bind, dict_getitem, dict_get, ret.
    rewrite Ht, Ha, Hd, Hu, Hth, Hv, Hk, Hde.
    unfold VideoMetadata_init.
    assert (Ev : validate_int env (default (VInt 0) (VInt <$> views))
                 = Some (default 0 views)) by (destruct views; apply Hi).
    assert (Ek : validate_int env (default (VInt 0) (VInt <$> likes_))
                 = Some (default 0 likes_)) by (destruct likes_; apply Hi).
    assert (Ed : validate_str env (default (VStr "") (VStr <$> descr))
                 = Some (default "" descr)) by (destruct descr; apply Hs).
    rewrite !Hs, Hi, Hl, Ev, Ek, Ed. reflexivity.
  - intros Hmiss. unfold bind, dict_getitem, raise, ret.
    destruct (info !! "title") eqn:Et.
    2:{ exists "title". split; [by repeat constructor|done]. }
    destruct (info !! "uploader") eqn:Ea.
    2:{ exists "uploader". split; [by repeat constructor|done]. }
    destruct (info !! "duration") eqn:Ed.
    2:{ exists "duration". split; [by repeat constructor|done]. }
    destruct (info !! "upload_date") eqn:Eu.
    2:{ exists "upload_date". split; [by repeat constructor|done]. }
    destruct Hmiss as [|[|[|]]]; discriminate.
Qed.

(** ** The three ways a conversion request ends *)

(** Once the [try]/[except] part has its primary result in state [s1]:
    no file at the destination, and the primary result stands; a file
    that refuses deletion, and the error of the unlink replaces the
    primary result; a file that is deleted, and the primary result
    stands. *)
Lemma conversion_cases (env : Env) (body : M Response) (p : string)
    (s : State) (ls : list Event) :
  trace (body s).2 = trace s ++ ls →
  let primary := try_except body (reraise_500 env) in
  let h := try_finally primary (cleanup p) in
  (files (fs (primary s).2) !! p = None ∧
   h s = primary s ∧ events_of h s = ls) ∨
  (∃ n msg, files (fs (primary s).2) !! p = Some n ∧
            undeletable (fs (primary s).2) !! p = Some msg ∧
            h s = (inl (OSError msg), (primary s).2) ∧ events_of h s = ls) ∨
  (∃ n, files (fs (primary s).2) !! p = Some n ∧
        undeletable (fs (primary s).2) !! p = None ∧
        h s = ((primary s).1, unlinked p (primary s).2) ∧
        events_of h s = ls ++ [Unlink p]).
Proof.
  intros Hb primary h.
  assert (Ht : trace (primary s).2 = trace s ++ ls).
  { unfold primary. by rewrite try_except_state. }
  assert (Eh : h s = try_finally primary (cleanup p) s) by reflexivity.
  rewrite try_finally_eq in Eh.
  destruct (primary s) as [r1 s1] eqn:Ep. cbn [fst snd] in *.
  destruct (files (fs s1) !! p) as [n|] eqn:Ef.
  - destruct (undeletable (fs s1) !! p) as [msg|] eqn:Eu.
    + right; left. exists n, msg. repeat split; try done.
      apply events_of_app. by rewrite Eh.
    + right; right. exists n. repeat split; try done.
      apply events_of_app. rewrite Eh. cbn [snd unlinked trace].
      by rewrite Ht, <- app_assoc.
  - left. repeat split; try done. apply events_of_app. by rewrite Eh.
Qed.


Lemma youtube_to_mp3_cases (env : Env) (request : MediaRequest) (s : State) :
  videoUrl request ≠ "" →
  let p := mp3_output_file request in
  let ls := mp3_launched env (videoUrl request) (format request) p s in
  let primary := mp3_primary env request in
  let h := youtube_to_mp3 env request in
  (files (fs (primary s).2) !! p = None ∧
   h s = primary s ∧ events_of h s = ls) ∨
  (∃ n msg, files (fs (primary s).2) !! p = Some n ∧
            undeletable (fs (primary s).2) !! p = Some msg ∧
            h s = (inl (OSError msg), (primary s).2) ∧ events_of h s = ls) ∨
  (∃ n, files (fs (primary s).2) !! p = Some n ∧
        undeletable (fs (primary s).2) !! p = None ∧
        h s = ((primary s).1, unlinked p (primary s).2) ∧
        events_of h s = ls ++ [Unlink p]).
Proof.
  intros H p ls primary h.
  pose proof (conversion_cases env
                (youtube_to_mp3_try env (videoUrl request) (format request) p) p s ls
                (youtube_to_mp3_try_trace _ _ _ _ _)) as Hc.
  cbn zeta in Hc. unfold h, events_of. rewrite youtube_to_mp3_eq by exact H.
  exact Hc.
Qed.

Lemma youtube_to_video_cases (env : Env) (request : MediaRequest) (s : State) :
  videoUrl request ≠ "" →
  let p := video_output_file request in
  let ls := video_launched env (videoUrl request) (format request) p s in
  let primary := video_primary env request in
  let h := youtube_to_video env request in
  (files (fs (primary s).2) !! p = None ∧
   h s = primary s ∧ events_of h s = ls) ∨
  (∃ n msg, files (fs (primary s).2) !! p = Some n ∧
            undeletable (fs (primary s).2) !! p = Some msg ∧
            h s = (inl (OSError msg), (primary s).2) ∧ events_of h s = ls) ∨
  (∃ n, files (fs (primary s).2) !! p = Some n ∧
        undeletable (fs (primary s).2) !! p = None ∧
        h s = ((primary s).1, unlinked p (primary s).2) ∧
        events_of h s = ls ++ [Unlink p]).
Proof.
  intros H p ls primary h.
  pose proof (conversion_cases env
                (youtube_to_video_try env (videoUrl request) (format request) p) p s ls
                (youtube_to_video_try_trace _ _ _ _ _)) as Hc.
  cbn zeta in Hc. unfold h, events_of. rewrite youtube_to_video_eq by exact H.
  exact Hc.
Qed.

Lemma conversion_handler_cases (env : Env) (k : Conversion) (request : MediaRequest)
    (s : State) :
  videoUrl request ≠ "" →
  let p := conversion_output_file k request in
  let ls := conversion_launched env k request s in
  let primary := conversion_primary env k request in
  let h := conversion_handler env k request in
  (files (fs (primary s).2) !! p = None ∧
   h s = primary s ∧ events_of h s = ls) ∨
  (∃ n msg, files (fs (primary s).2) !! p = Some n ∧
            undeletable (fs (primary s).2) !! p = Some msg ∧
            h s = (inl (OSError msg), (primary s).2) ∧ events_of h s = ls) ∨
  (∃ n, files (fs (primary s).2) !! p = Some n ∧
        undeletable (fs (primary s).2) !! p = None ∧
        h s = ((primary s).1, unlinked p (primary s).2) ∧
        events_of h s = ls ++ [Unlink p]).
Proof.
  intros H. destruct k.
  - exact (youtube_to_mp3_cases env request s H).
  - exact (youtube_to_video_cases env request s H).
Qed.

Lemma conversion_launched_split (env : Env) (k : Conversion) (request : MediaRequest)
    (s : State) :
  launches (conversion_launched env k request s) = conversion_launched env k request s ∧
  unlinks (conversion_launched env k request s) = [].
Proof.
  destruct k; [apply mp3_launched_launches|apply video_launched_launches].
Qed.

(** A [try] body that returns has seen the destination file. *)
Lemma conversion_try_returns (env : Env) (k : Conversion) (request : MediaRequest)
    (s s' : State) (r : Response) :
  conversion_try env k request s = (inr r, s') →
  is_Some (files (fs s') !! conversion_output_file k request).
Proof.
  destruct k; intros H.
  - by apply youtube_to_mp3_try_returns in H as [_ ?].
  - by apply youtube_to_video_try_returns in H as [_ ?].
Qed.






(** C8, as the code has it.  For a conversion request that reaches the
    success branch, that is, whose try block returns the FileResponse:
    the response names the destination, which exists at that point, and
    - when the destination accepts deletion, the finally clause unlinks
      it as the last action of the handler, which then returns that
      response: the path it names no longer exists;
    - when the deletion is refused, the handler does not return the
      response but raises the error of the unlink, in the state the try
      block left: nothing has been unlinked and the file is still
      there. *)
Theorem C8_success_branch_unlinks (env : Env) (k : Conversion) (request : MediaRequest)
    (s s1 : State) (r : Response) :
  videoUrl request ≠ "" →
  conversion_try env k request s = (inr r, s1) →
  let p := conversion_output_file k request in
  let h := conversion_handler env k request in
  r = match k with
      | to_mp3 => FileResponse p "audio/mpeg" "audio.mp3"
      | to_video => FileResponse p "video/mp4" "video.mp4"
      end ∧
  file_exists (fs s1) p ∧
  (undeletable (fs s1) !! p = None →
     h s = (inr r, unlinked p s1) ∧
     files (fs (h s).2) !! p = None ∧
     trace (h s).2 = trace s1 ++ [Unlink p]) ∧
  (∀ msg, undeletable (fs s1) !! p = Some msg →
     h s = (inl (OSError msg), s1) ∧
     unlinks (events_of h s) = []).
Proof.
  intros Hne Hb p h.
  assert (Hr : r = match k with
                   | to_mp3 => FileResponse p "audio/mpeg" "audio.mp3"
                   | to_video => FileResponse p "video/mp4" "video.mp4"
                   end).
  { destruct k; cbn [conversion_try] in Hb.
    - by apply youtube_to_mp3_try_returns in Hb as [-> _].
    - by apply youtube_to_video_try_returns in Hb as [-> _]. }
  assert (Hex : is_Some (files (fs s1) !! p)) by exact (conversion_try_returns _ _ _ _ _ _ Hb).
  assert (Hp : conversion_primary env k request s = (inr r, s1)).
  { unfold conversion_primary. by rewrite try_except_reraise_eq, Hb. }
  destruct (conversion_launched_split env k request s) as [_ Hnil].
  split; [exact Hr|]. split; [exact Hex|].
  destruct (conversion_handler_cases env k request s Hne)
    as [(Hf & _) | [(n & m & Hf & Hu & Hh & Hev) | (n & Hf & Hu & Hh & Hev)]];
    rewrite Hp in *; cbn [fst snd] in *; fold p in Hf; try fold p in Hu.
  - rewrite Hf in Hex. by destruct Hex.
  - split; [intros Hd; congruence|].
    intros msg Hm. assert (msg = m) as -> by congruence.
    split; [exact Hh|]. fold h in Hev. by rewrite Hev.
  - split; [|intros msg Hm; congruence].
    intros _. fold h in Hh. rewrite Hh. cbn [snd].
    split; [reflexivity|]. split; [apply unlinked_gone|reflexivity].
Qed.

(** ** Destinations *)

Lemma conversion_handler_empty_url (env : Env) (k : Conversion)
    (request : MediaRequest) (s : State) :
  videoUrl request = "" →
  conversion_handler env k request s =
  (inl (HTTPException 400 "Video URL is required."), s).
Proof.
  intros H. destruct k.
  - exact (handler_empty_url env api_youtube_to_mp3 request s H).
  - exact (handler_empty_url env api_youtube_to_video request s H).
Qed.

Lemma conversion_handler_eq (env : Env) (k : Conversion) (request : MediaRequest)
    (s : State) :
  videoUrl request ≠ "" →
  conversion_handler env k request s =
  try_finally (conversion_primary env k request)
    (cleanup (conversion_output_file k request)) s.
Proof.
  intros H. destruct k; [by apply youtube_to_mp3_eq|by apply youtube_to_video_eq].
Qed.

(** The response of a conversion handler names the destination. *)
Lemma conversion_response (env : Env) (k : Conversion) (request : MediaRequest)
    (s s' : State) (r : Response) :
  conversion_handler env k request s = (inr r, s') →
  ∃ mt fn, r = FileResponse (conversion_output_file k request) mt fn.
Proof.
  intros H. destruct (decide (videoUrl request = "")) as [E|E].
  { by rewrite conversion_handler_empty_url in H. }
  rewrite conversion_handler_eq in H by exact E.
  apply try_finally_returns in H as (s1 & Hb & _).
  apply try_except_returns in Hb. destruct k.
  - apply youtube_to_mp3_try_returns in Hb as [-> _]. eauto.
  - apply youtube_to_video_try_returns in Hb as [-> _]. eauto.
Qed.

(** Every unlink of a conversion handler is on the destination. *)
Lemma conversion_unlinks (env : Env) (k : Conversion) (request : MediaRequest)
    (s : State) (q : string) :
  Unlink q ∈ events_of (conversion_handler env k request) s →
  q = conversion_output_file k request.
Proof.
  destruct (decide (videoUrl request = "")) as [E|E].
  { unfold events_of. rewrite conversion_handler_empty_url by exact E.
    cbn [snd]. rewrite drop_all. by intros ?%elem_of_nil. }
  intros Hin.
  assert (Hls : Unlink q ∉ conversion_launched env k request s).
  { intros Hq. destruct (conversion_launched_split env k request s) as [_ Hnil].
    apply list_elem_of_In in Hq.
    assert (Hf : In (Unlink q) (unlinks (conversion_launched env k request s))).
    { apply List.filter_In. by split. }
    rewrite Hnil in Hf. destruct Hf. }
  destruct (conversion_handler_cases env k request s E)
    as [(_ & _ & Hev) | [(n & m & _ & _ & _ & Hev) | (n & _ & _ & _ & Hev)]];
    rewrite Hev in Hin; try done.
  apply elem_of_app in Hin as [Hin|Hin]; [done|].
  apply list_elem_of_singleton in Hin. by injection Hin.
Qed.

(** C2, as the code has it.  The destination of a request does not
    depend on the request: every audio conversion writes to
    downloads/audio.mp3 and every video download to downloads/video.mp4,
    so two requests to the same endpoint share their path and only
    requests to different endpoints have different ones.  Each request
    has this one destination: it is the only path the handler unlinks
    and the path of the response it returns. *)
Theorem C2_destination_per_endpoint (env : Env) (r1 r2 : MediaRequest) (s : State) :
  mp3_output_file r1 = "downloads/audio.mp3" ∧
  video_output_file r1 = "downloads/video.mp4" ∧
  (∀ k, conversion_output_file k r1 = conversion_output_file k r2) ∧
  mp3_output_file r1 ≠ video_output_file r2 ∧
  (∀ k q, Unlink q ∈ events_of (conversion_handler env k r1) s →
          q = conversion_output_file k r1) ∧
  (∀ k q mt fn, (conversion_handler env k r1 s).1 = inr (FileResponse q mt fn) →
                q = conversion_output_file k r1).
Proof.
  split; [reflexivity|]. split; [reflexivity|]. split; [by intros []|].
  split; [discriminate|]. split.
  - intros k q. apply conversion_unlinks.
  - intros k q mt fn Hr.
    destruct (conversion_handler env k r1 s) as [res s'] eqn:E. cbn [fst] in Hr.
    subst res. apply conversion_response in E as (mt' & fn' & E). by injection E.
Qed.

(** ** The result of the pipeline *)




(** ** The handlers on concrete worlds *)

Example working_audio_run :
  youtube_to_mp3 working_tools sample_request empty_state =
  (inr (FileResponse "downloads/audio.mp3" "audio/mpeg" "audio.mp3"),
   mkState empty_fs
     [Launch ["yt-dlp"; "https://example.org/v"; "--format"; "bestaudio/best"; "-o"; "-"]
        None;
      Launch ["ffmpeg"; "-i"; "pipe:0"; "-vn"; "-acodec"; "libmp3lame"; "-ar"; "44100";
              "-ab"; "192k"; "-f"; "mp3"; "downloads/audio.mp3"]
        (Some ["yt-dlp"; "https://example.org/v"; "--format"; "bestaudio/best"; "-o"; "-"]);
      Unlink "downloads/audio.mp3"]).
Proof. vm_compute. reflexivity. Qed.

Example failing_video_run :
  youtube_to_video failing_tools sample_request empty_state =
  (inl (HTTPException 500 "Error processing the request: yt-dlp error: boom"),
   mkState empty_fs
     [Launch ["yt-dlp"; "https://example.org/v"; "--format"; "bestaudio/best"; "-o";
              "downloads/video.mp4"] None]).
Proof. vm_compute. reflexivity. Qed.

Example failing_audio_run :
  (youtube_to_mp3 failing_tools sample_request empty_state).1 =
  inl (HTTPException 500
         "Error processing the request: 500: Error processing video: FFmpeg error: boom").
Proof. vm_compute. reflexivity. Qed.

(** ** Concrete requests *)



(** Two different requests to the audio endpoint get the same path. *)
Lemma C2_two_requests_share_path :
  ¬ (sample_request ≠ other_request →
     mp3_output_file sample_request ≠ mp3_output_file other_request).
Proof.
  intros H. apply H; [discriminate|reflexivity].
Qed.

Lemma C2_destination_per_endpoint_witness :
  "downloads/audio.mp3" = conversion_output_file to_mp3 sample_request ∧
  "downloads/video.mp4" = conversion_output_file to_video sample_request.
Proof.
  pose proof (C2_destination_per_endpoint working_tools sample_request other_request
                empty_state) as (_ & _ & _ & _ & Hu & Hr).
  split.
  - apply Hu. apply list_elem_of_In. vm_compute. tauto.
  - apply (Hr to_video _ "video/mp4" "video.mp4"). vm_compute. reflexivity.
Defined.



(** A body without [videoUrl] is answered with 422, not 400. *)
Lemma C4_missing_url_is_not_400 :
  ¬ (reply_status
       (serve working_tools api_youtube_to_mp3 (mkBody None None) empty_state).1 = 400).
Proof. vm_compute. discriminate. Qed.

Lemma C4_empty_or_missing_url_witness :
  serve working_tools api_youtube_to_video (mkBody (Some "") (Some "best")) empty_state =
  (ReplyHTTPException 400 "Video URL is required.", empty_state) ∧
  serve working_tools api_youtube_video_details (mkBody None None) empty_state =
  (ReplyUnprocessable, empty_state).
Proof.
  split.
  - apply (C4_empty_or_missing_url working_tools api_youtube_to_video
             (mkBody (Some "") (Some "best")) empty_state). reflexivity.
  - apply (C4_empty_or_missing_url working_tools api_youtube_video_details
             (mkBody None None) empty_state). reflexivity.
Defined.



Lemma C6_metadata_fields_witness :
  (youtube_metadata (metadata_env sample_info) sample_request empty_state).1 =
  inr (MetadataResponse (mkVideoMetadata "clip" "someone" 212 0 "20240101" 0 "" [])) ∧
  ∃ k, (youtube_metadata (metadata_env (delete "title" sample_info)) sample_request
          empty_state).1 =
       inl (HTTPException 500 ("Error fetching video details: " +:+ "'" +:+ k +:+ "'")).
Proof.
  assert (Hne : videoUrl sample_request ≠ "") by discriminate.
  split.
  - refine (proj1 (C6_metadata_fields (metadata_env sample_info) sample_request
                     empty_state sample_info Hne eq_refl)
              "clip" "someone" 212 "20240101" [] None None None _ _ _ _ _ _ _ _ _);
      try (vm_compute; reflexivity).
    repeat split.
  - destruct (proj2 (C6_metadata_fields (metadata_env (delete "title" sample_info))
                       sample_request empty_state (delete "title" sample_info)
                       Hne eq_refl)) as (k & _ & _ & Hk).
    + left. vm_compute. reflexivity.
    + exists k. exact Hk.
Defined.

Lemma C7_pipeline_stages_witness :
  launches (events_of (youtube_to_mp3 working_tools sample_request) empty_state) =
  [Launch ["yt-dlp"; "https://example.org/v"; "--format"; "bestaudio/best"; "-o"; "-"]
     None;
   Launch ["ffmpeg"; "-i"; "pipe:0"; "-vn"; "-acodec"; "libmp3lame"; "-ar"; "44100";
           "-ab"; "192k"; "-f"; "mp3"; "downloads/audio.mp3"]
     (Some ["yt-dlp"; "https://example.org/v"; "--format"; "bestaudio/best"; "-o"; "-"])] ∧
  launches (events_of (youtube_to_video working_tools sample_request) empty_state) =
  [Launch ["yt-dlp"; "https://example.org/v"; "--format"; "bestaudio/best"; "-o";
           "downloads/video.mp4"] None].
Proof.
  assert (Hne : videoUrl sample_request ≠ "") by discriminate.
  pose proof (C7_pipeline_stages working_tools sample_request empty_state Hne)
    as (_ & Haudio & _ & Hvideo).
  split.
  - eapply Haudio; vm_compute; reflexivity.
  - eapply Hvideo; vm_compute; reflexivity.
Defined.

(** A request that reaches the success branch while the destination
    refuses deletion: the try block returns the FileResponse, yet nothing
    is unlinked, the file is still there when the handler ends, and the
    handler raises instead of returning. *)
Lemma C8_success_branch_keeps_file :
  let p := "downloads/audio.mp3" in
  let h := youtube_to_mp3 working_tools sample_request in
  (conversion_try working_tools to_mp3 sample_request locked_state).1 =
  inr (FileResponse p "audio/mpeg" "audio.mp3") ∧
  unlinks (events_of h locked_state) = [] ∧
  ¬ (files (fs (h locked_state).2) !! p = None) ∧
  (h locked_state).1 = inl (OSError "Permission denied").
Proof.
  intros p h. split; [vm_compute; reflexivity|]. split; [vm_compute; reflexivity|].
  split; [|vm_compute; reflexivity]. vm_compute. discriminate.
Qed.

Lemma C8_success_branch_unlinks_witness :
  youtube_to_mp3 working_tools sample_request empty_state =
  (inr (FileResponse "downloads/audio.mp3" "audio/mpeg" "audio.mp3"),
   unlinked "downloads/audio.mp3"
     (conversion_try working_tools to_mp3 sample_request empty_state).2) ∧
  (youtube_to_video working_tools sample_request locked_state).1 =
  inl (OSError "Permission denied").
Proof.
  assert (Hne : videoUrl sample_request ≠ "") by discriminate.
  split.
  - refine (proj1 (proj1 (proj2 (proj2
              (C8_success_branch_unlinks working_tools to_mp3 sample_request empty_state
                 (conversion_try working_tools to_mp3 sample_request empty_state).2
                 (FileResponse "downloads/audio.mp3" "audio/mpeg" "audio.mp3")
                 Hne _))) _)).
    + vm_compute. reflexivity.
    + vm_compute. reflexivity.
  - refine (f_equal fst (proj1 (proj2 (proj2 (proj2
              (C8_success_branch_unlinks working_tools to_video sample_request
                 locked_state
                 (conversion_try working_tools to_video sample_request locked_state).2
                 (FileResponse "downloads/video.mp4" "video/mp4" "video.mp4")
                 Hne _))) "Permission denied" _))).
    + vm_compute. reflexivity.
    + vm_compute. reflexivity.
Defined.



Lemma C10_video_default_format_witness :
  launches (events_of (serve working_tools api_youtube_to_video
                         (mkBody (Some "https://example.org/v") None)) empty_state) =
  [Launch ["yt-dlp"; "https://example.org/v"; "--format"; "bestaudio/best"; "-o";
           "downloads/video.mp4"] None].
Proof.
  assert (Hne : "https://example.org/v" ≠ "") by discriminate.
  eapply (proj2 (proj2 (C10_video_default_format working_tools
                          (mkBody (Some "https://example.org/v") None)
                          "https://example.org/v" empty_state eq_refl Hne eq_refl))).
  vm_compute. reflexivity.
Defined.

(** * Further properties of the handlers *)

(** ** download_media *)

(** X1.  Whatever goes wrong in download_media -- a program that cannot
    be started, a non-zero exit of ffmpeg, an error output that cannot
    be decoded -- leaves it as an HTTPException with status 500 whose
    detail starts with "Error processing video: ". *)
Theorem X1_download_media_raises_500 (env : Env) (url fmt out : string)
    (s s' : State) (e : Exn) :
  download_media env url fmt out s = (inl e, s') →
  ∃ m, e = HTTPException 500 ("Error processing video: " +:+ m).
Proof.
  rewrite download_media_eq.
  destruct (exec env (command url fmt) [] (fs s)) as [msg|c1].
  { intros [= <- _]. eauto. }
  cbn zeta.
  destruct (exec env (ffmpeg_command out) (stdout c1) (fs_after c1)) as [msg|c2].
  { intros [= <- _]. eauto. }
  cbn zeta. case_bool_decide; [|discriminate].
  destruct (decode_utf8 env (stderr c2)); intros [= <- _]; eauto.
Qed.

(** X2.  download_media returns normally exactly when both programs
    could be started and ffmpeg exited with status zero.  The exit
    status of yt-dlp plays no part in it. *)
Theorem X2_download_media_returns_iff (env : Env) (url fmt out : string) (s : State) :
  (download_media env url fmt out s).1 = inr tt ↔
  ∃ c1 c2, exec env (command url fmt) [] (fs s) = inr c1 ∧
           exec env (ffmpeg_command out) (stdout c1) (fs_after c1) = inr c2 ∧
           returncode c2 = 0.
Proof.
  rewrite download_media_eq. split.
  - destruct (exec env (command url fmt) [] (fs s)) as [msg|c1]; [discriminate|].
    cbn zeta.
    destruct (exec env (ffmpeg_command out) (stdout c1) (fs_after c1))
      as [msg|c2] eqn:E2; [discriminate|].
    cbn zeta. case_bool_decide as Hrc.
    { destruct (decode_utf8 env (stderr c2)); discriminate. }
    intros _. exists c1, c2. by rewrite E2.
  - intros (c1 & c2 & -> & H2 & Hrc). cbn zeta. rewrite H2. cbn zeta.
    rewrite bool_decide_eq_false_2 by (by intros ?). reflexivity.
Qed.

(** X3.  When ffmpeg exits with a non-zero status and its error output
    is not valid UTF-8, the failure of download_media carries the text
    of the decoding error instead of the output of ffmpeg. *)
Theorem X3_undecodable_ffmpeg_stderr (env : Env) (url fmt out : string) (s : State)
    (c1 c2 : Completed) (msg : string) :
  exec env (command url fmt) [] (fs s) = inr c1 →
  exec env (ffmpeg_command out) (stdout c1) (fs_after c1) = inr c2 →
  returncode c2 ≠ 0 →
  decode_utf8 env (stderr c2) = inl msg →
  (download_media env url fmt out s).1 =
  inl (HTTPException 500 ("Error processing video: " +:+ msg)).
Proof.
  intros H1 H2 Hrc Hd. rewrite download_media_eq, H1. cbn zeta. rewrite H2. cbn zeta.
  by rewrite bool_decide_eq_true_2, Hd.
Qed.

(** ** youtube_metadata *)

Lemma VideoMetadata_init_state (env : Env) (a1 a2 a3 a4 a5 a6 a7 a8 : PyVal)
    (st : State) :
  (VideoMetadata_init env a1 a2 a3 a4 a5 a6 a7 a8 st).2 = st.
Proof.
  unfold VideoMetadata_init.
  destruct (validate_str env a1), (validate_str env a2), (validate_int env a3),
    (validate_int env a4), (validate_str env a5), (validate_int env a6),
    (validate_str env a7), (validate_list env a8); reflexivity.
Qed.

Lemma youtube_metadata_extractor_fails (env : Env) (video : MediaRequest) (s : State)
    (msg : string) :
  videoUrl video ≠ "" →
  extract_info env ydl_opts (videoUrl video) = inl msg →
  youtube_metadata env video s =
  (inl (HTTPException 500 ("Error fetching video details: " +:+ msg)),
   mkState (fs s) (trace s ++ [ExtractInfo ydl_opts (videoUrl video)])).
Proof.
  intros Hne Hx. unfold youtube_metadata.
  rewrite bool_decide_eq_false_2 by exact Hne.
  unfold try_except, youtube_metadata_try, YoutubeDL_extract_info, bind, log_event.
  by rewrite Hx.
Qed.

Lemma youtube_metadata_state (env : Env) (video : MediaRequest) (s : State) :
  videoUrl video ≠ "" →
  (youtube_metadata env video s).2 =
  mkState (fs s) (trace s ++ [ExtractInfo ydl_opts (videoUrl video)]).
Proof.
  intros Hne.
  destruct (extract_info env ydl_opts (videoUrl video)) as [msg|info] eqn:Hx.
  { by rewrite (youtube_metadata_extractor_fails env video s msg Hne Hx). }
  unfold youtube_metadata. rewrite bool_decide_eq_false_2 by exact Hne.
  unfold try_except, youtube_metadata_try, YoutubeDL_extract_info, bind, log_event.
  rewrite Hx. unfold ret at 1. unfold dict_getitem, raise, ret.
  destruct (info !! "title"); [|reflexivity].
  destruct (info !! "uploader"); [|reflexivity].
  destruct (info !! "duration"); [|reflexivity].
  destruct (info !! "upload_date"); [|reflexivity].
  destruct (info !! "thumbnails"); [|reflexivity].
  match goal with
  | |- context [VideoMetadata_init ?e ?a ?b ?c ?d ?f ?g ?h ?i ?st] =>
      pose proof (VideoMetadata_init_state e a b c d f g h i st) as Hst;
      destruct (VideoMetadata_init e a b c d f g h i st) as [[x|m] s']
  end; cbn [snd] in Hst; by subst s'.
Qed.

(** X4.  On every path of a metadata request with a non-empty URL --
    the extractor fails, a key is missing, the validation refuses a
    field, or the metadata is returned -- the handler calls the extractor
    exactly once, with the options quiet and force_generic_extractor and
    the URL of the request.  The handler itself starts no process and
    unlinks nothing. *)
Theorem X4_metadata_one_extractor_call (env : Env) (video : MediaRequest) (s : State) :
  videoUrl video ≠ "" →
  events_of (youtube_metadata env video) s =
  [ExtractInfo [("quiet", true); ("force_generic_extractor", true)] (videoUrl video)].
Proof.
  intros Hne. apply events_of_app. by rewrite youtube_metadata_state.
Qed.

(** X5.  A metadata request ends in one of three ways: the metadata; the
    400 "Video URL is required." (exactly when the URL is empty); or a
    500 whose detail starts with "Error fetching video details: ".  No
    other exception leaves the handler. *)
Theorem X5_metadata_outcomes (env : Env) (video : MediaRequest) (s : State) :
  (∃ m, (youtube_metadata env video s).1 = inr (MetadataResponse m) ∧
        videoUrl video ≠ "") ∨
  ((youtube_metadata env video s).1 = inl (HTTPException 400 "Video URL is required.") ∧
   videoUrl video = "") ∨
  (∃ t, (youtube_metadata env video s).1 =
        inl (HTTPException 500 ("Error fetching video details: " +:+ t)) ∧
        videoUrl video ≠ "").
Proof.
  destruct (decide (videoUrl video = "")) as [E|E].
  { right; left. split; [|exact E].
    exact (f_equal fst (handler_empty_url env api_youtube_video_details video s E)). }
  destruct (extract_info env ydl_opts (videoUrl video)) as [msg|info] eqn:Hx.
  { right; right. exists msg.
    by rewrite (youtube_metadata_extractor_fails env video s msg E Hx). }
  rewrite (youtube_metadata_eq env video s info E Hx).
  match goal with
  | |- context [match ?run with (_, _) => _ end] => destruct run as [[e|m] s']
  end.
  - right; right. eauto.
  - left. eauto.
Qed.

(** X6.  The five keys title, uploader, duration, upload_date and
    thumbnails are read in this order, and the first one that the
    extractor's dictionary lacks is the one the error names: the request
    fails with the 500 "Error fetching video details: '<key>'".  This
    includes thumbnails, which has no default either. *)
Theorem X6_first_missing_key (env : Env) (video : MediaRequest) (s : State)
    (info : gmap string PyVal) (i : nat) (k : string) :
  videoUrl video ≠ "" →
  extract_info env ydl_opts (videoUrl video) = inr info →
  metadata_keys !! i = Some k →
  info !! k = None →
  (∀ j k', (j < i)%nat → metadata_keys !! j = Some k' → is_Some (info !! k')) →
  (youtube_metadata env video s).1 =
  inl (HTTPException 500 ("Error fetching video details: " +:+ "'" +:+ k +:+ "'")).
Proof.
  intros Hne Hx Hk Hnone Hbefore.
  rewrite (youtube_metadata_eq env video s info Hne Hx).
  unfold bind, dict_getitem, raise, ret.
  assert (H0 : (0 < i)%nat → is_Some (info !! "title"))
    by (intros; by apply (Hbefore 0%nat)).
  assert (H1 : (1 < i)%nat → is_Some (info !! "uploader"))
    by (intros; by apply (Hbefore 1%nat)).
  assert (H2 : (2 < i)%nat → is_Some (info !! "duration"))
    by (intros; by apply (Hbefore 2%nat)).
  assert (H3 : (3 < i)%nat → is_Some (info !! "upload_date"))
    by (intros; by apply (Hbefore 3%nat)).
  destruct i as [|[|[|[|[|i]]]]]; cbn in Hk; [..|done]; injection Hk as <-.
  - by rewrite Hnone.
  - destruct H0 as [v0 ->]; [lia|]. by rewrite Hnone.
  - destruct H0 as [v0 ->]; [lia|]. destruct H1 as [v1 ->]; [lia|]. by rewrite Hnone.
  - destruct H0 as [v0 ->]; [lia|]. destruct H1 as [v1 ->]; [lia|].
    destruct H2 as [v2 ->]; [lia|]. by rewrite Hnone.
  - destruct H0 as [v0 ->]; [lia|]. destruct H1 as [v1 ->]; [lia|].
    destruct H2 as [v2 ->]; [lia|]. destruct H3 as [v3 ->]; [lia|]. by rewrite Hnone.
Qed.

(** X7.  The defaults of view_count, like_count and description apply to
    a missing key only.  When the extractor reports a view count of None
    and the field validation refuses None as an integer, the value is not
    replaced by 0: the request fails with a 500 carrying the validation
    error on view_count, although every other field is fine. *)
Theorem X7_none_is_not_defaulted (env : Env) (video : MediaRequest) (s : State)
    (info : gmap string PyVal) (t a u : string) (d : Z) (th : list PyVal)
    (likes_ : option Z) (descr : option string) :
  videoUrl video ≠ "" →
  extract_info env ydl_opts (videoUrl video) = inr info →
  pydantic_accepts env →
  validate_int env VNone = None →
  info !! "title" = Some (VStr t) →
  info !! "uploader" = Some (VStr a) →
  info !! "duration" = Some (VInt d) →
  info !! "upload_date" = Some (VStr u) →
  info !! "thumbnails" = Some (VList th) →
  info !! "like_count" = VInt <$> likes_ →
  info !! "description" = VStr <$> descr →
  info !! "view_count" = Some VNone →
  (youtube_metadata env video s).1 =
  inl (HTTPException 500
         ("Error fetching video details: " +:+ str_ValidationError env ["view_count"])).
Proof.
  intros Hne Hx (Hs & Hi & Hl) Hnone Ht Ha Hd Hu Hth Hk Hde Hv.
  rewrite (youtube_metadata_eq env video s info Hne Hx).
  unfold bind, dict_getitem, dict_get, ret.
  rewrite Ht, Ha, Hd, Hu, Hth, Hv, Hk, Hde.
  unfold VideoMetadata_init.
  assert (Ev : validate_int env (default (VInt 0) (Some VNone)) = None) by exact Hnone.
  assert (Ek : validate_int env (default (VInt 0) (VInt <$> likes_))
               = Some (default 0 likes_)) by (destruct likes_; apply Hi).
  assert (Ed : validate_str env (default (VStr "") (VStr <$> descr))
               = Some (default "" descr)) by (destruct descr; apply Hs).
  rewrite !Hs, Hi, Hl, Ev, Ek, Ed. reflexivity.
Qed.

(** ** The conversion handlers *)

(** X8.  The destination is shared, and the finally clause deletes
    whatever is there.  When the first program of a conversion cannot be
    started, so that the request has written nothing, a file that
    already exists at the destination (and accepts deletion) is deleted
    all the same, and the request ends with its 500. *)
Theorem X8_failed_start_deletes_existing_file (env : Env) (request : MediaRequest)
    (s : State) (n : N) (msg : string) :
  videoUrl request ≠ "" →
  (exec env (command (videoUrl request) (format request)) [] (fs s) = inl msg →
   files (fs s) !! mp3_output_file request = Some n →
   undeletable (fs s) !! mp3_output_file request = None →
   youtube_to_mp3 env request s =
   (inl (HTTPException 500
           ("Error processing the request: " +:+
            str_HTTPException env 500 ("Error processing video: " +:+ msg))),
    unlinked (mp3_output_file request) s)) ∧
  (exec env (video_command (videoUrl request) (format request)
               (video_output_file request)) [] (fs s) = inl msg →
   files (fs s) !! video_output_file request = Some n →
   undeletable (fs s) !! video_output_file request = None →
   youtube_to_video env request s =
   (inl (HTTPException 500 ("Error processing the request: " +:+ msg)),
    unlinked (video_output_file request) s)).
Proof.
  intros Hne. split; intros Hx Hf Hu.
  - rewrite youtube_to_mp3_eq by exact Hne.
    rewrite try_finally_eq, try_except_reraise_eq, youtube_to_mp3_try_eq,
      download_media_eq, Hx.
    by rewrite Hf, Hu.
  - rewrite youtube_to_video_eq by exact Hne.
    rewrite try_finally_eq, try_except_reraise_eq, youtube_to_video_try_eq, Hx.
    by rewrite Hf, Hu.
Qed.



(** X10.  The finally clause touches the destination only: every other
    path is, when the handler ends, as the try part left it, and so is
    the set of paths that refuse deletion. *)
Theorem X10_finally_touches_destination_only (env : Env) (k : Conversion)
    (request : MediaRequest) (s : State) (q : string) :
  videoUrl request ≠ "" →
  q ≠ conversion_output_file k request →
  files (fs (conversion_handler env k request s).2) !! q =
  files (fs (conversion_primary env k request s).2) !! q ∧
  undeletable (fs (conversion_handler env k request s).2) =
  undeletable (fs (conversion_primary env k request s).2).
Proof.
  intros Hne Hq.
  destruct (conversion_handler_cases env k request s Hne)
    as [(_ & Hh & _) | [(n & m & _ & _ & Hh & _) | (n & _ & _ & Hh & _)]];
    rewrite Hh; cbn [fst snd unlinked fs files undeletable]; try done.
  split; [|reflexivity]. by apply lookup_delete_ne.
Qed.

(** X11.  The audio endpoint wraps its failures twice.  The try block
    only ever raises an HTTPException with status 500 (from
    download_media, or for the missing file), so that a failed audio
    conversion answers 500 with the detail "Error processing the
    request: " followed by the text of that inner HTTPException, never
    by the message of the tool itself. *)
Theorem X11_audio_failure_wrapped_twice (env : Env) (request : MediaRequest)
    (s s' : State) (st : Z) (d : string) :
  videoUrl request ≠ "" →
  youtube_to_mp3 env request s = (inl (HTTPException st d), s') →
  st = 500 ∧
  ∃ d0, d = "Error processing the request: " +:+ str_HTTPException env 500 d0 ∧
        (d0 = "Audio conversion failed, file not created." ∨
         ∃ m, d0 = "Error processing video: " +:+ m).
Proof.
  intros Hne H.
  assert (Hp : (conversion_primary env to_mp3 request s).1 = inl (HTTPException st d)).
  { destruct (conversion_handler_cases env to_mp3 request s Hne)
      as [(_ & Hh & _) | [(n & m & _ & _ & Hh & _) | (n & _ & _ & Hh & _)]];
      cbn [conversion_handler] in Hh; rewrite Hh in H.
    - by rewrite H.
    - discriminate.
    - by injection H as -> _. }
  unfold conversion_primary, conversion_try in Hp.
  rewrite try_except_reraise_eq, youtube_to_mp3_try_eq, download_media_eq in Hp.
  destruct (exec env (command (videoUrl request) (format request)) [] (fs s))
    as [msg|c1].
  { injection Hp as <- <-. split; [reflexivity|]. eexists. split; [reflexivity|]. eauto. }
  cbn zeta in Hp.
  destruct (exec env (ffmpeg_command (mp3_output_file request)) (stdout c1) (fs_after c1))
    as [msg|c2].
  { injection Hp as <- <-. split; [reflexivity|]. eexists. split; [reflexivity|]. eauto. }
  cbn zeta in Hp. case_bool_decide.
  { destruct (decode_utf8 env (stderr c2)); injection Hp as <- <-;
      (split; [reflexivity|]); eexists; (split; [reflexivity|]); eauto. }
  cbn [fs] in Hp.
  destruct (files (fs_after c2) !! mp3_output_file request); [discriminate|].
  injection Hp as <- <-. split; [reflexivity|]. eexists. split; [reflexivity|]. eauto.
Qed.

(** X12.  The existence check cannot tell the output of this request
    from a file that was already at the destination.  When the tools
    exit with status zero without changing the filesystem and a file
    (that accepts deletion) was at the destination before the request,
    the handler returns its response for that file and deletes it. *)
Theorem X12_existing_file_is_served (env : Env) (request : MediaRequest)
    (s : State) (n : N) :
  videoUrl request ≠ "" →
  (∀ c1 c2,
     exec env (command (videoUrl request) (format request)) [] (fs s) = inr c1 →
     exec env (ffmpeg_command (mp3_output_file request)) (stdout c1) (fs_after c1)
       = inr c2 →
     returncode c2 = 0 →
     fs_after c2 = fs s →
     files (fs s) !! mp3_output_file request = Some n →
     undeletable (fs s) !! mp3_output_file request = None →
     (youtube_to_mp3 env request s).1 =
       inr (FileResponse (mp3_output_file request) "audio/mpeg" "audio.mp3") ∧
     files (fs (youtube_to_mp3 env request s).2) !! mp3_output_file request = None) ∧
  (∀ c o t,
     exec env (video_command (videoUrl request) (format request)
                 (video_output_file request)) [] (fs s) = inr c →
     decode_locale env (stdout c) = inr o →
     decode_locale env (stderr c) = inr t →
     returncode c = 0 →
     fs_after c = fs s →
     files (fs s) !! video_output_file request = Some n →
     undeletable (fs s) !! video_output_file request = None →
     (youtube_to_video env request s).1 =
       inr (FileResponse (video_output_file request) "video/mp4" "video.mp4") ∧
     files (fs (youtube_to_video env request s).2) !! video_output_file request = None).
Proof.
  intros Hne. split.
  - intros c1 c2 H1 H2 Hrc Hfs Hf Hu.
    rewrite youtube_to_mp3_eq by exact Hne.
    rewrite try_finally_eq, try_except_reraise_eq, youtube_to_mp3_try_eq,
      download_media_eq, H1.
    cbn zeta. rewrite H2. cbn zeta.
    rewrite bool_decide_eq_false_2 by (by intros ?).
    cbn [fs]. rewrite Hfs, Hf. cbn [fs]. rewrite Hf, Hu. cbn [fst snd fs files].
    split; [reflexivity|]. apply lookup_delete_eq.
  - intros c o t H1 Ho Ht Hrc Hfs Hf Hu.
    rewrite youtube_to_video_eq by exact Hne.
    rewrite try_finally_eq, try_except_reraise_eq, youtube_to_video_try_eq, H1.
    cbn zeta. rewrite Ho, Ht.
    rewrite bool_decide_eq_false_2 by (by intros ?).
    rewrite Hfs, Hf. cbn [fs]. rewrite Hf, Hu. cbn [fst snd fs files].
    split; [reflexivity|]. apply lookup_delete_eq.
Qed.

(** ** The further properties on concrete requests *)

Lemma X1_download_media_raises_500_witness :
  ∃ m, HTTPException 500 "Error processing video: FFmpeg error: boom" =
       HTTPException 500 ("Error processing video: " +:+ m).
Proof.
  apply (X1_download_media_raises_500 failing_tools "https://example.org/v" "best"
           "downloads/audio.mp3" empty_state
           (download_media failing_tools "https://example.org/v" "best"
              "downloads/audio.mp3" empty_state).2).
  vm_compute. reflexivity.
Defined.

Lemma X2_download_media_returns_iff_witness :
  (download_media careless_tools "https://example.org/v" "best"
     "downloads/audio.mp3" empty_state).1 = inr tt.
Proof.
  apply (proj2 (X2_download_media_returns_iff careless_tools "https://example.org/v"
                  "best" "downloads/audio.mp3" empty_state)).
  eexists _, _. split; [vm_compute; reflexivity|].
  split; [vm_compute; reflexivity|]. reflexivity.
Defined.

Lemma X3_undecodable_ffmpeg_stderr_witness :
  (download_media garbled_tools "https://example.org/v" "best"
     "downloads/audio.mp3" empty_state).1 =
  inl (HTTPException 500 "Error processing video: invalid start byte").
Proof.
  eapply (X3_undecodable_ffmpeg_stderr garbled_tools "https://example.org/v" "best"
            "downloads/audio.mp3" empty_state).
  - vm_compute. reflexivity.
  - vm_compute. reflexivity.
  - vm_compute. discriminate.
  - vm_compute. reflexivity.
Defined.

Lemma X4_metadata_one_extractor_call_witness :
  events_of (youtube_metadata (metadata_env (delete "title" sample_info)) sample_request)
    stale_state =
  [ExtractInfo [("quiet", true); ("force_generic_extractor", true)]
     "https://example.org/v"].
Proof.
  assert (Hne : videoUrl sample_request ≠ "") by discriminate.
  exact (X4_metadata_one_extractor_call (metadata_env (delete "title" sample_info))
           sample_request stale_state Hne).
Defined.

Lemma X6_first_missing_key_witness :
  (youtube_metadata (metadata_env (delete "thumbnails" sample_info)) sample_request
     empty_state).1 =
  inl (HTTPException 500 "Error fetching video details: 'thumbnails'").
Proof.
  assert (Hne : videoUrl sample_request ≠ "") by discriminate.
  apply (X6_first_missing_key (metadata_env (delete "thumbnails" sample_info))
           sample_request empty_state (delete "thumbnails" sample_info) 4 "thumbnails"
           Hne eq_refl eq_refl).
  - vm_compute. reflexivity.
  - intros j k' Hj Hk.
    destruct j as [|[|[|[|j]]]]; [..|lia]; injection Hk as <-;
      eexists; vm_compute; reflexivity.
Defined.

Lemma X7_none_is_not_defaulted_witness :
  (youtube_metadata (metadata_env none_views_info) sample_request empty_state).1 =
  inl (HTTPException 500
         ("Error fetching video details: " +:+
          str_ValidationError (metadata_env none_views_info) ["view_count"])).
Proof.
  assert (Hne : videoUrl sample_request ≠ "") by discriminate.
  refine (X7_none_is_not_defaulted (metadata_env none_views_info) sample_request
            empty_state none_views_info "clip" "someone" "20240101" 212 [] None None
            Hne eq_refl _ eq_refl _ _ _ _ _ _ _ _);
    try (vm_compute; reflexivity).
  repeat split.
Defined.

Lemma X8_failed_start_deletes_existing_file_witness :
  youtube_to_mp3 missing_tools sample_request stale_state =
  (inl (HTTPException 500
          "Error processing the request: 500: Error processing video: [Errno 2] No such file or directory: 'yt-dlp'"),
   unlinked "downloads/audio.mp3" stale_state) ∧
  youtube_to_video missing_tools sample_request stale_state =
  (inl (HTTPException 500
          "Error processing the request: [Errno 2] No such file or directory: 'yt-dlp'"),
   unlinked "downloads/video.mp4" stale_state).
Proof.
  assert (Hne : videoUrl sample_request ≠ "") by discriminate.
  pose proof (X8_failed_start_deletes_existing_file missing_tools sample_request
                stale_state 7%N "[Errno 2] No such file or directory: 'yt-dlp'" Hne)
    as [Ha Hv].
  split.
  - apply Ha; vm_compute; reflexivity.
  - apply Hv; vm_compute; reflexivity.
Defined.


Lemma X10_finally_touches_destination_only_witness :
  files (fs (youtube_to_mp3 working_tools sample_request stale_state).2)
    !! "downloads/video.mp4" =
  files (fs (conversion_primary working_tools to_mp3 sample_request stale_state).2)
    !! "downloads/video.mp4".
Proof.
  assert (Hne : videoUrl sample_request ≠ "") by discriminate.
  apply (X10_finally_touches_destination_only working_tools to_mp3 sample_request
           stale_state "downloads/video.mp4" Hne).
  discriminate.
Defined.

Lemma X11_audio_failure_wrapped_twice_witness :
  ∃ d0, "Error processing the request: 500: Error processing video: FFmpeg error: boom" =
        "Error processing the request: " +:+ str_HTTPException failing_tools 500 d0 ∧
        (d0 = "Audio conversion failed, file not created." ∨
         ∃ m, d0 = "Error processing video: " +:+ m).
Proof.
  assert (Hne : videoUrl sample_request ≠ "") by discriminate.
  apply (X11_audio_failure_wrapped_twice failing_tools sample_request empty_state
           (youtube_to_mp3 failing_tools sample_request empty_state).2 500 _ Hne).
  vm_compute. reflexivity.
Defined.

Lemma X12_existing_file_is_served_witness :
  (youtube_to_mp3 idle_tools sample_request stale_state).1 =
  inr (FileResponse "downloads/audio.mp3" "audio/mpeg" "audio.mp3") ∧
  (youtube_to_video idle_tools sample_request stale_state).1 =
  inr (FileResponse "downloads/video.mp4" "video/mp4" "video.mp4").
Proof.
  assert (Hne : videoUrl sample_request ≠ "") by discriminate.
  pose proof (X12_existing_file_is_served idle_tools sample_request stale_state 7%N Hne)
    as [Ha Hv].
  split.
  - eapply Ha; vm_compute; reflexivity.
  - eapply Hv; vm_compute; reflexivity.
Defined.
